(** * ThreatExchange client: the HTTP core of [client/base.py]

    A shallow embedding of [BaseClient] (request execution, response
    handling, rate-limit retries, pagination, upload) and of
    [PaginatedResponse.from_dict] from [client/models.py], followed by the
    properties of the request/response/pagination engine.

    Modelling conventions.
    - Python values that travel through the client (JSON bodies, parameter
      values) are [pyval]; JSON numbers are integers ([Z]), floats are not
      modelled; [None] and JSON [null] are both [PNone].
    - A [dict] is a finite map from strings to values.  Key order is not
      recorded.
    - Dictionaries that are passed by reference and mutated ([params],
      [data]) live in a heap and are handled through locations.
    - Exceptions, the request log of the HTTP session, the heap and the log
      of [time.sleep] calls are threaded by the monad [M].
    - [str] is modelled by byte strings; [str.lower] lowers ASCII letters.
    - Library functions whose behaviour the client does not fix ([urljoin],
      [urlparse], [parse_qs], [int], [open], the HTTP transport itself) are
      fields of an environment [Env]. *)

From stdpp Require Import gmap strings list fin_maps pretty.
From Stdlib Require Import ZArith String Ascii Lia.

Set Warnings "-register-all".

(** ** Python values *)

Inductive pyval :=
| PNone
| PBool (b : bool)
| PInt (n : Z)
| PStr (s : string)
| PList (l : list pyval)
| PDict (m : gmap string pyval).

Abbreviation dict := (gmap string pyval).

(** [len(d) != 0], the truth value of a dictionary. *)
Definition dict_truthy (d : dict) : bool := negb (Nat.eqb (size d) 0).

(** [bool(v)] *)
Definition truthy (v : pyval) : bool :=
  match v with
  | PNone => false
  | PBool b => b
  | PInt n => negb (Z.eqb n 0)
  | PStr s => negb (Nat.eqb (String.length s) 0)
  | PList l => negb (Nat.eqb (List.length l) 0)
  | PDict m => dict_truthy m
  end.

(** [v == n] for an integer literal [n] ([True == 1], [False == 0]). *)
Definition py_eq_int (v : pyval) (n : Z) : bool :=
  match v with
  | PInt m => Z.eqb m n
  | PBool b => Z.eqb (if b then 1 else 0) n
  | _ => false
  end.

(** [v in (n1, n2, ...)] for a tuple of integer literals. *)
Definition py_in_ints (v : pyval) (ns : list Z) : bool :=
  existsb (py_eq_int v) ns.

(** ** Strings *)

Definition ascii_lower (a : ascii) : ascii :=
  let n := nat_of_ascii a in
  if Nat.leb 65 n && Nat.leb n 90 then ascii_of_nat (n + 32) else a.

(** [s.lower()] *)
Fixpoint lower (s : string) : string :=
  match s with
  | EmptyString => EmptyString
  | String a r => String (ascii_lower a) (lower r)
  end.

(** [hay.startswith(p)] *)
Definition startswith (p hay : string) : bool := String.prefix p hay.

(** [needle in hay] *)
Fixpoint contains (needle hay : string) : bool :=
  String.prefix needle hay ||
  match hay with
  | EmptyString => false
  | String _ r => contains needle r
  end.

(** [s.lstrip("/")] *)
Fixpoint lstrip_slash (s : string) : string :=
  match s with
  | String "/" r => lstrip_slash r
  | _ => s
  end.

(** [s.split("/")[-1]]: the text after the last slash. *)
Fixpoint last_segment_from (acc s : string) : string :=
  match s with
  | EmptyString => acc
  | String "/" r => last_segment_from r r
  | String _ r => last_segment_from acc r
  end.

Definition last_segment (s : string) : string := last_segment_from s s.

(** ** Exceptions ([client/exceptions.py]) *)

Inductive error_class :=
| ThreatExchangeError
| AuthenticationError
| RateLimitError
| NotFoundError
| ValidationError
| PermissionError.

(** An instance of [ThreatExchangeError] or of one of its subclasses.
    [retry_after] is the extra attribute of [RateLimitError]. *)
Record ApiError := {
  cls : error_class;
  message : pyval;
  code : pyval;
  details : dict;
  retry_after : option Z }.

(** [ThreatExchangeError.__init__]: [details or {}]. *)
Definition mk_error (k : error_class) (msg code : pyval) (det : option dict) : ApiError :=
  {| cls := k; message := msg; code := code; details := default ∅ det;
     retry_after := None |}.

(** [RateLimitError.__init__] *)
Definition mk_rate_limit (msg code : pyval) (ra : Z) : ApiError :=
  {| cls := RateLimitError; message := msg; code := code; details := ∅;
     retry_after := Some ra |}.

(** What a call can raise: a typed failure of the client, or an exception
    of the Python runtime or of a library that the client does not catch
    (named by its class). *)
Inductive exn :=
| ApiExn (e : ApiError)
| PyExn (name : string).

Inductive outcome (A : Type) :=
| Return (a : A)
| Raise (e : exn)
| OutOfFuel.

Arguments Return {A} a.
Arguments Raise {A} e.
Arguments OutOfFuel {A}.

(** ** HTTP exchange *)

(** The arguments of [Session.request] / [Session.post].  [req_files] is
    the [file] entry of [files]: a file name and the content (both may be
    [None]). *)
Record Request := {
  req_method : string;
  req_url : string;
  req_params : option dict;
  req_data : option dict;
  req_files : option (option string * option string);
  req_timeout : Z }.

(** What the client reads of a [requests.Response]: [json] is [None] when
    [response.json()] raises [ValueError]; [headers] holds the header
    names in their canonical spelling ([Retry-After]). *)
Record Response := {
  status_code : Z;
  text : string;
  json : option pyval;
  headers : gmap string string }.

Inductive Exchange :=
| RequestException (msg : string)
| Reply (r : Response).

(** [urllib.parse.ParseResult], the fields the client reads. *)
Record ParseResult := {
  scheme : string;
  netloc : string;
  path : string;
  query : string }.

(** Library functions and the outside world.  [py_int s] is [int(s)]
    ([None] for [ValueError]); [open_rb p] is the content of the file at
    [p] ([None] when [open] raises [OSError]); [transport h r] is the
    answer to request [r] after the requests [h] were made. *)
Record Env := {
  urljoin : string -> string -> string;
  urlparse : string -> ParseResult;
  parse_qs : string -> gmap string (list string);
  py_int : string -> option Z;
  open_rb : string -> option string;
  transport : list Request -> Request -> Exchange }.

(** ** State and the monad *)

Record World := {
  heap : gmap nat dict;
  sent : list Request;
  slept : list Z }.

Definition M (A : Type) : Type := World -> outcome A * World.

Definition ret {A} (a : A) : M A := fun w => (Return a, w).
Definition raise {A} (e : exn) : M A := fun w => (Raise e, w).
Definition out_of_fuel {A} : M A := fun w => (OutOfFuel, w).

Definition bind {A B} (m : M A) (k : A -> M B) : M B :=
  fun w =>
    match m w with
    | (Return a, w') => k a w'
    | (Raise e, w') => (Raise e, w')
    | (OutOfFuel, w') => (OutOfFuel, w')
    end.

Notation "'let*' x ':=' m 'in' k" := (bind m (fun x => k))
  (at level 10, x name, m at level 100, k at level 200).

Definition lift {A} (o : outcome A) : M A := fun w => (o, w).

(** Sequencing of computations that only return or raise. *)
Definition obind {A B} (o : outcome A) (k : A -> outcome B) : outcome B :=
  match o with
  | Return a => k a
  | Raise e => Raise e
  | OutOfFuel => OutOfFuel
  end.

Notation "'let+' x ':=' m 'in' k" := (obind m (fun x => k))
  (at level 10, x name, m at level 100, k at level 200).

Fixpoint map_outcome {A B} (f : A -> outcome B) (l : list A) : outcome (list B) :=
  match l with
  | [] => Return []
  | x :: r => let+ y := f x in let+ ys := map_outcome f r in Return (y :: ys)
  end.

(** A new dictionary object. *)
Definition alloc (d : dict) : M nat :=
  fun w =>
    let l := fresh (dom (heap w)) in
    (Return l, {| heap := <[l := d]> (heap w); sent := sent w; slept := slept w |}).

Definition deref (l : nat) : M dict :=
  fun w => (Return (default ∅ (heap w !! l)), w).

(** [d[k] = v] on the object at [l]. *)
Definition store (l : nat) (k : string) (v : pyval) : M unit :=
  fun w =>
    (Return tt,
     {| heap := <[l := <[k := v]> (default ∅ (heap w !! l))]> (heap w);
        sent := sent w; slept := slept w |}).

(** [time.sleep(d)]: raises [ValueError] on a negative length. *)
Definition time_sleep (d : Z) : M unit :=
  fun w =>
    if Z.ltb d 0 then (Raise (PyExn "ValueError"), w)
    else (Return tt, {| heap := heap w; sent := sent w; slept := slept w ++ [d] |}).

(** [x or {}] for an optional dictionary: the object itself when it is a
    non-empty dictionary, a new empty one otherwise. *)
Definition or_new (p : option nat) : M nat :=
  match p with
  | None => alloc ∅
  | Some l => let* d := deref l in if dict_truthy d then ret l else alloc ∅
  end.

(** The content of [x or {}] where the object itself is not kept. *)
Definition or_empty (p : option nat) : M dict :=
  match p with
  | None => ret ∅
  | Some l => deref l
  end.

(** ** Reading values *)

(** ["error" in result] *)
Definition has_error_key (result : pyval) : outcome bool :=
  match result with
  | PDict m => Return (bool_decide (is_Some (m !! "error")))
  | PList l => Return (existsb (fun v => match v with PStr s => String.eqb s "error" | _ => false end) l)
  | PStr s => Return (contains "error" s)
  | _ => Raise (PyExn "TypeError")
  end.

(** [v[k]] for a string key [k] *)
Definition getitem (v : pyval) (k : string) : outcome pyval :=
  match v with
  | PDict m => match m !! k with Some x => Return x | None => Raise (PyExn "KeyError") end
  | _ => Raise (PyExn "TypeError")
  end.

(** [v.get(k, dflt)] *)
Definition py_get (v : pyval) (k : string) (dflt : pyval) : outcome pyval :=
  match v with
  | PDict m => Return (default dflt (m !! k))
  | _ => Raise (PyExn "AttributeError")
  end.

(** ["rate limit" in v.lower()] *)
Definition mentions_rate_limit (v : pyval) : outcome bool :=
  match v with
  | PStr s => Return (contains "rate limit" (lower s))
  | _ => Raise (PyExn "AttributeError")
  end.

(** The dictionary passed as [details]. *)
Definition as_details (v : pyval) : option dict :=
  match v with
  | PDict m => Some m
  | _ => None
  end.

(** ** [BaseClient] *)

Record BaseClient := {
  access_token : string;
  app_id : option string;
  app_secret : option string;
  version : string;
  timeout : Z;
  retry_on_rate_limit : bool;
  max_retries : Z }.

Definition BASE_URL : string := "https://graph.facebook.com".
Definition DEFAULT_VERSION : string := "v19.0".
Definition DEFAULT_TIMEOUT : Z := 30.
Definition DEFAULT_LIMIT : Z := 500.

(** [BaseClient.__init__] *)
Definition new_client (access_token : string) (app_id app_secret version : option string)
    (timeout : Z) (retry_on_rate_limit : bool) (max_retries : Z) : BaseClient :=
  {| access_token := access_token;
     app_id := app_id;
     app_secret := app_secret;
     version := match version with
                | Some v => if Nat.eqb (String.length v) 0 then DEFAULT_VERSION else v
                | None => DEFAULT_VERSION
                end;
     timeout := timeout;
     retry_on_rate_limit := retry_on_rate_limit;
     max_retries := max_retries |}.

Section Client.

Context (E : Env) (self : BaseClient).

Definition _base_url : string := BASE_URL +:+ "/" +:+ version self.

Definition _build_url (endpoint : string) : string :=
  if startswith "http" endpoint then endpoint
  else urljoin E (_base_url +:+ "/") (lstrip_slash endpoint).

(** [session.request(...)] / [session.post(...)]: the request is recorded
    and answered by the transport. *)
Definition send (r : Request) : M Exchange :=
  fun w =>
    (Return (transport E (sent w) r),
     {| heap := heap w; sent := sent w ++ [r]; slept := slept w |}).

Definition _get_retry_after (response : Response) : Z :=
  match headers response !! "Retry-After" with
  | Some s =>
      if negb (Nat.eqb (String.length s) 0) then
        match py_int E s with
        | Some n => n
        | None => 60
        end
      else 60
  | None => 60
  end.

(** [retry] stands for [self._request], which [_handle_response] calls
    back on a rate limit. *)
Definition _handle_response
    (retry : string -> string -> option nat -> option nat -> Z -> M pyval)
    (response : Response) (method endpoint : string)
    (params data : option nat) (retry_count : Z) : M pyval :=
  match json response with
  | None =>
      if Z.leb 400 (status_code response) then
        raise (ApiExn (mk_error ThreatExchangeError
                 (PStr ("API error: " +:+ pretty (status_code response) +:+ " - " +:+ text response))
                 (PInt (status_code response)) None))
      else
        raise (ApiExn (mk_error ThreatExchangeError
                 (PStr "Invalid JSON response from API") PNone None))
  | Some result =>
      let* has_error := lift (has_error_key result) in
      if has_error : bool then
        let* error := lift (getitem result "error") in
        let* error_code := lift (py_get error "code" (PInt 0)) in
        let* error_message := lift (py_get error "message" (PStr "Unknown error")) in
        let* rate_limited :=
          (if py_in_ints error_code [4; 17; 613]%Z then ret true
           else lift (mentions_rate_limit error_message)) in
        if rate_limited : bool then
          if retry_on_rate_limit self && Z.ltb retry_count (max_retries self) then
            let retry_after := _get_retry_after response in
            let* _ := time_sleep retry_after in
            retry method endpoint params data (retry_count + 1)%Z
          else
            raise (ApiExn (mk_rate_limit error_message error_code (_get_retry_after response)))
        else if py_in_ints error_code [190; 102; 463; 467]%Z then
          raise (ApiExn (mk_error AuthenticationError error_message error_code None))
        else if py_eq_int error_code 803 || Z.eqb (status_code response) 404 then
          raise (ApiExn (mk_error NotFoundError error_message error_code None))
        else if py_in_ints error_code [10; 200; 294]%Z then
          raise (ApiExn (mk_error PermissionError error_message error_code None))
        else if py_eq_int error_code 100 then
          raise (ApiExn (mk_error ValidationError error_message error_code None))
        else
          raise (ApiExn (mk_error ThreatExchangeError error_message error_code (as_details error)))
      else ret result
  end.

(** [_request] calls itself (through [_handle_response]) with
    [retry_count + 1] while [retry_count < max_retries]; [fuel] bounds the
    depth of that recursion. *)
Fixpoint _request_fuel (fuel : nat) (method endpoint : string)
    (params data : option nat) (retry_count : Z) : M pyval :=
  match fuel with
  | O => out_of_fuel
  | S fuel' =>
      let url := _build_url endpoint in
      let* params := or_new params in
      let* _ := store params "access_token" (PStr (access_token self)) in
      let* p := deref params in
      let* d := (if String.eqb method "GET" then ret ∅ else or_empty data) in
      let* x := send {| req_method := method;
                        req_url := url;
                        req_params := if String.eqb method "GET" then Some p else None;
                        req_data := if String.eqb method "GET" then None else Some (d ∪ p);
                        req_files := None;
                        req_timeout := timeout self |} in
      match x with
      | RequestException e =>
          raise (ApiExn (mk_error ThreatExchangeError (PStr ("Request failed: " +:+ e)) PNone None))
      | Reply response =>
          _handle_response (_request_fuel fuel') response method endpoint (Some params) data retry_count
      end
  end.

(** The recursion stops once [retry_count] reaches [max_retries]. *)
Definition request_depth (retry_count : Z) : nat :=
  S (Z.to_nat (max_retries self - retry_count)).

Definition _request (method endpoint : string) (params data : option nat)
    (retry_count : Z) : M pyval :=
  _request_fuel (request_depth retry_count) method endpoint params data retry_count.

Definition _get (endpoint : string) (params : option nat) : M pyval :=
  _request "GET" endpoint params None 0.

Definition _post (endpoint : string) (data params : option nat) : M pyval :=
  _request "POST" endpoint params data 0.

Definition _delete (endpoint : string) (params : option nat) : M pyval :=
  _request "DELETE" endpoint params None 0.

End Client.

(** ** [PaginatedResponse] ([client/models.py]) *)

Record PaginatedResponse := {
  data : pyval;
  next_url : pyval;
  has_next : bool }.

Definition is_none (v : pyval) : bool :=
  match v with
  | PNone => true
  | _ => false
  end.

Fixpoint chars (s : string) : list pyval :=
  match s with
  | EmptyString => []
  | String a r => PStr (String a EmptyString) :: chars r
  end.

(** The elements that [for item in v] visits.  A dictionary gives its
    keys, here in the order of the map's enumeration. *)
Definition py_iter (v : pyval) : outcome (list pyval) :=
  match v with
  | PList l => Return l
  | PStr s => Return (chars s)
  | PDict m => Return (PStr <$> (map_to_list m).*1)
  | _ => Raise (PyExn "TypeError")
  end.

(** [PaginatedResponse.from_dict(data, item_factory)] *)
Definition from_dict (body : pyval) (item_factory : option (pyval -> outcome pyval))
    : outcome PaginatedResponse :=
  let+ items := py_get body "data" (PList []) in
  let+ items :=
    match item_factory with
    | Some f =>
        let+ xs := py_iter items in
        let+ ys := map_outcome f xs in
        Return (PList ys)
    | None => Return items
    end in
  let+ paging := py_get body "paging" (PDict ∅) in
  let+ next_url := py_get paging "next" PNone in
  Return {| data := items; next_url := next_url; has_next := negb (is_none next_url) |}.

(** ** Pagination and upload *)

(** The local variables of a suspended [_paginate]. *)
Record Locals := {
  l_endpoint : string;
  l_params : nat;
  l_item_factory : option (pyval -> outcome pyval);
  l_limit : option Z;
  l_count : Z;
  l_next_url : pyval }.

(** The generator object that [_paginate] returns: not started yet,
    suspended at [yield item] (with the page being iterated and the items
    of it still to come), or finished. *)
Inductive Generator :=
| GenCreated (endpoint : string) (params : option nat)
    (item_factory : option (pyval -> outcome pyval)) (limit : option Z)
| GenSuspended (vars : Locals) (response : PaginatedResponse) (rest : list pyval)
| GenFinished.

(** [v[0] if len(v) == 1 else v] *)
Definition flatten_single (v : list string) : pyval :=
  match v with
  | [x] => PStr x
  | _ => PList (PStr <$> v)
  end.

(** [limit and count >= limit] *)
Definition limit_reached (limit : option Z) (count : Z) : bool :=
  match limit with
  | Some l => negb (Z.eqb l 0) && Z.leb l count
  | None => false
  end.

Section Paginate.

Context (E : Env) (self : BaseClient).

Definition with_params (v : Locals) (p : nat) : Locals :=
  {| l_endpoint := l_endpoint v; l_params := p; l_item_factory := l_item_factory v;
     l_limit := l_limit v; l_count := l_count v; l_next_url := l_next_url v |}.

Definition with_count (v : Locals) (c : Z) : Locals :=
  {| l_endpoint := l_endpoint v; l_params := l_params v; l_item_factory := l_item_factory v;
     l_limit := l_limit v; l_count := c; l_next_url := l_next_url v |}.

Definition with_next_url (v : Locals) (u : pyval) : Locals :=
  {| l_endpoint := l_endpoint v; l_params := l_params v; l_item_factory := l_item_factory v;
     l_limit := l_limit v; l_count := l_count v; l_next_url := u |}.

(** The [for] loop from its head: yield the next item of the page, or,
    when the page is exhausted, stop on the last page and go round the
    [while] loop ([again]) otherwise. *)
Definition for_items (again : Locals -> M (option pyval * Generator))
    (v : Locals) (response : PaginatedResponse) (items : list pyval)
    : M (option pyval * Generator) :=
  match items with
  | item :: rest => ret (Some item, GenSuspended v response rest)
  | [] =>
      if negb (has_next response) then ret (None, GenFinished)
      else again (with_next_url v (next_url response))
  end.

(** The head of the [while] loop: fetch the page at the continuation URL
    when there is one, with the parameters of its query string and the
    token, and the first page otherwise.  Gives the body and the variables
    with [params] as it now is. *)
Definition fetch_page (v : Locals) : M (pyval * Locals) :=
  if truthy (l_next_url v) then
    match l_next_url v with
    | PStr u =>
        let parsed := urlparse E u in
        let query_params := parse_qs E (query parsed) in
        let* params := alloc (flatten_single <$> query_params) in
        let* _ := store params "access_token" (PStr (access_token self)) in
        let* result :=
          _get E self (scheme parsed +:+ "://" +:+ netloc parsed +:+ path parsed)
               (Some params) in
        ret (result, with_params v params)
    | _ => raise (PyExn "AttributeError")
    end
  else
    let* result := _get E self (l_endpoint v) (Some (l_params v)) in
    ret (result, v).

(** One round of [while True] up to the next [yield] or the end; [fuel]
    bounds the number of pages fetched before an item is found. *)
Fixpoint while_true (fuel : nat) (v : Locals) : M (option pyval * Generator) :=
  match fuel with
  | O => out_of_fuel
  | S fuel' =>
      let* fetched := fetch_page v in
      let* response := lift (from_dict (fst fetched) (l_item_factory (snd fetched))) in
      let* items := lift (py_iter (data response)) in
      for_items (while_true fuel') (snd fetched) response items
  end.

(** [next(g)]: run the generator to its next [yield] ([Some item]) or to
    its end ([None], that is [StopIteration]).  A generator that raised is
    finished. *)
Definition gen_next (fuel : nat) (g : Generator) : M (option pyval * Generator) :=
  match g with
  | GenCreated endpoint params item_factory limit =>
      let* params := or_new params in
      let* p := deref params in
      let* _ := (if bool_decide (is_Some (p !! "limit")) then ret tt
                 else store params "limit" (PInt DEFAULT_LIMIT)) in
      while_true fuel
        {| l_endpoint := endpoint; l_params := params; l_item_factory := item_factory;
           l_limit := limit; l_count := 0; l_next_url := PNone |}
  | GenSuspended v response rest =>
      let v := with_count v (l_count v + 1)%Z in
      if limit_reached (l_limit v) (l_count v) then ret (None, GenFinished)
      else for_items (while_true fuel) v response rest
  | GenFinished => ret (None, GenFinished)
  end.

(** [list(g)] with at most [n] calls of [next]: [collect] takes the
    outcome of one call and goes on with the rest. *)
Fixpoint drain (n fuel : nat) (g : Generator) : M (list pyval) :=
  match n with
  | O => out_of_fuel
  | S n' =>
      let* step := gen_next fuel g in
      match fst step with
      | Some item => let* items := drain n' fuel (snd step) in ret (item :: items)
      | None => ret []
      end
  end.

Definition collect (n fuel : nat) (m : M (option pyval * Generator)) : M (list pyval) :=
  let* step := m in
  match fst step with
  | Some item => let* items := drain n fuel (snd step) in ret (item :: items)
  | None => ret []
  end.

(** [file_name or file_path.split("/")[-1]] *)
Definition upload_name (file_name : option string) (file_path : string) : string :=
  match file_name with
  | Some n => if Nat.eqb (String.length n) 0 then last_segment file_path else n
  | None => last_segment file_path
  end.

(** [self._session.post(url, data=data, files=files, timeout=...)]; a
    transport failure is not caught by [_upload_file]. *)
Definition session_post (url : string) (d : dict) (file : option string * option string)
    : M Response :=
  let* x := send E {| req_method := "POST"; req_url := url; req_params := None;
                      req_data := Some d; req_files := Some file;
                      req_timeout := timeout self |} in
  match x with
  | RequestException _ => raise (PyExn "RequestException")
  | Reply response => ret response
  end.

Definition _upload_file (endpoint : string) (file_path file_content file_name : option string)
    (data : option nat) : M pyval :=
  let* data := or_new data in
  let* _ := store data "access_token" (PStr (access_token self)) in
  let* response :=
    (match file_path with
     | Some fp =>
         if negb (Nat.eqb (String.length fp) 0) then
           match open_rb E fp with
           | Some f =>
               let* d := deref data in
               session_post (_build_url E self endpoint) d (Some (upload_name file_name fp), Some f)
           | None => raise (PyExn "OSError")
           end
         else
           let* d := deref data in
           session_post (_build_url E self endpoint) d (file_name, file_content)
     | None =>
         let* d := deref data in
         session_post (_build_url E self endpoint) d (file_name, file_content)
     end) in
  _handle_response E self (_request E self) response "POST" endpoint None (Some data) 0.

End Paginate.

(** ** The error classification of the specification *)

(** An error envelope: numeric code, message and HTTP status. *)
Record Envelope := { env_code : Z; env_message : string; env_status : Z }.

(** The rules of the specification in priority order, each with the class
    it selects; no rule matching means the generic class. *)
Definition spec_rules : list ((Envelope -> bool) * error_class) :=
  [ (fun e => bool_decide (env_code e ∈ [4; 17; 613]%Z)
              || contains "rate limit" (lower (env_message e)), RateLimitError);
    (fun e => bool_decide (env_code e ∈ [190; 102; 463; 467]%Z), AuthenticationError);
    (fun e => bool_decide (env_code e = 803%Z) || bool_decide (env_status e = 404%Z), NotFoundError);
    (fun e => bool_decide (env_code e ∈ [10; 200; 294]%Z), PermissionError);
    (fun e => bool_decide (env_code e = 100%Z), ValidationError) ].

(** First match wins. *)
Fixpoint first_match (rules : list ((Envelope -> bool) * error_class)) (e : Envelope)
    : error_class :=
  match rules with
  | [] => ThreatExchangeError
  | (applies, k) :: rest => if applies e then k else first_match rest e
  end.

(** The class that the specification gives an envelope. *)
Definition spec_classify (e : Envelope) : error_class := first_match spec_rules e.

(** [k] is the class [k']. *)
Definition is_class (k k' : error_class) : bool :=
  match k, k' with
  | ThreatExchangeError, ThreatExchangeError | AuthenticationError, AuthenticationError
  | RateLimitError, RateLimitError | NotFoundError, NotFoundError
  | ValidationError, ValidationError | PermissionError, PermissionError => true
  | _, _ => false
  end.

(** ** Page bodies *)

(** The ["paging"] entry of a body is absent or is itself a dictionary. *)
Definition paging_is_dict (body : dict) : Prop :=
  match body !! "paging" with
  | None => True
  | Some (PDict _) => True
  | Some _ => False
  end.

(** [paging.next] of a body, [None] when either level is missing. *)
Definition paging_next (body : dict) : pyval :=
  match body !! "paging" with
  | Some (PDict p) => default PNone (p !! "next")
  | _ => PNone
  end.

(** [{"data": [{"id": "1"}, {"id": "2"}], "paging": {}}] *)
Definition two_items_body : dict :=
  <["data" := PList [PDict {["id" := PStr "1"]}; PDict {["id" := PStr "2"]}]]>
    (<["paging" := PDict ∅]> ∅).

(** ** The request as it is built *)

Section RequestShape.

Context (E : Env) (self : BaseClient).

(** The object that [params or {}] denotes in [w]: the caller's own
    dictionary when it is non-empty, a new object otherwise. *)
Definition param_loc (params : option nat) (w : World) : nat :=
  match params with
  | Some l => if dict_truthy (default ∅ (heap w !! l)) then l else fresh (dom (heap w))
  | None => fresh (dom (heap w))
  end.

(** Its content before the token is added. *)
Definition param_dict (params : option nat) (w : World) : dict :=
  match params with
  | Some l => if dict_truthy (default ∅ (heap w !! l)) then default ∅ (heap w !! l) else ∅
  | None => ∅
  end.

(** The world once [_request] has set [params["access_token"]]. *)
Definition prepared (params : option nat) (w : World) : World :=
  {| heap := <[param_loc params w := <["access_token" := PStr (access_token self)]> (param_dict params w)]> (heap w);
     sent := sent w;
     slept := slept w |}.

(** The arguments that [_request] hands to [session.request]. *)
Definition built_request (method endpoint : string) (params data : option nat) (w : World)
    : Request :=
  let p := <["access_token" := PStr (access_token self)]> (param_dict params w) in
  let d := match data with
           | Some l => default ∅ (heap (prepared params w) !! l)
           | None => ∅
           end in
  {| req_method := method;
     req_url := _build_url E self endpoint;
     req_params := if String.eqb method "GET" then Some p else None;
     req_data := if String.eqb method "GET" then None else Some (d ∪ p);
     req_files := None;
     req_timeout := timeout self |}.

Definition with_sent (w : World) (r : Request) : World :=
  {| heap := heap w; sent := sent w ++ [r]; slept := slept w |}.

(** The request carries the client's token among its query parameters. *)
Definition token_in_query (r : Request) : Prop :=
  exists d, req_params r = Some d /\ d !! "access_token" = Some (PStr (access_token self)).

(** The caller's body parameters define ["access_token"] themselves. *)
Definition body_override (w : World) (data : option nat) (v : pyval) : Prop :=
  exists l d, data = Some l /\ heap w !! l = Some d /\ d !! "access_token" = Some v.

(** How a request of a call [_request(method, _, _, data)] started in
    [w] carries the token: a [GET] in its query parameters, with no body;
    any other verb in the form body only, where a body parameter of the
    caller named ["access_token"] takes its place. *)
Definition carries_token (method : string) (w : World) (data : option nat) (r : Request) : Prop :=
  req_method r = method /\
  if String.eqb method "GET" then token_in_query r /\ req_data r = None
  else req_params r = None /\
       exists d, req_data r = Some d /\
         (d !! "access_token" = Some (PStr (access_token self))
          \/ exists v, body_override w data v /\ d !! "access_token" = Some v).

End RequestShape.

(** ** Rate-limited servers *)

(** The response carries an error envelope that [_handle_response] takes
    for a rate limit: its code is 4, 17 or 613, or its message contains
    "rate limit" in any letter case. *)
Definition rate_limit_envelope (response : Response) : Prop :=
  exists result error,
    json response = Some (PDict result)
    /\ result !! "error" = Some (PDict error)
    /\ (py_in_ints (default (PInt 0) (error !! "code")) [4; 17; 613]%Z = true
        \/ exists s, error !! "message" = Some (PStr s)
                     /\ contains "rate limit" (lower s) = true).

(** Every request is answered, and with a rate-limit envelope. *)
Definition always_rate_limited (E : Env) : Prop :=
  forall h r, exists response, transport E h r = Reply response /\ rate_limit_envelope response.

(** No answer announces a negative [Retry-After]. *)
Definition delays_non_negative (E : Env) (self : BaseClient) : Prop :=
  forall h r response, transport E h r = Reply response -> (0 <= _get_retry_after E response)%Z.

(** The number of requests of a call that meets rate limits only. *)
Definition attempts (self : BaseClient) (retry_count : Z) : nat :=
  S (if retry_on_rate_limit self then Z.to_nat (max_retries self - retry_count) else 0).

(** ** A sample environment

    Simple stand-ins for the library functions, enough for the URLs and
    headers of the examples: URLs of the form [scheme://host/path?k=v&k=v]
    without escapes or fragments, decimal integers with an optional minus
    sign, and [urljoin] of a base ending in a slash with a plain relative
    path. *)

(** The text before the first [c], and the rest from [c] on. *)
Fixpoint break (c : ascii) (s : string) : string * string :=
  match s with
  | EmptyString => (EmptyString, EmptyString)
  | String a r =>
      if Ascii.eqb a c then (EmptyString, s)
      else let '(x, y) := break c r in (String a x, y)
  end.

Definition drop_first (s : string) : string :=
  match s with
  | EmptyString => EmptyString
  | String _ r => r
  end.

Definition simple_urlparse (u : string) : ParseResult :=
  let '(sch, r1) := break ":" u in
  match r1 with
  | String ":" (String "/" (String "/" r2)) =>
      let '(host, r3) := break "/" r2 in
      let '(pth, r4) := break "?" r3 in
      {| scheme := sch; netloc := host; path := pth; query := drop_first r4 |}
  | _ =>
      let '(pth, r4) := break "?" u in
      {| scheme := ""; netloc := ""; path := pth; query := drop_first r4 |}
  end.

(** The pieces of [s] between the occurrences of [c]; [fuel] bounds their
    number. *)
Fixpoint split_on (fuel : nat) (c : ascii) (s : string) : list string :=
  match fuel with
  | O => [s]
  | S fuel' =>
      let '(x, y) := break c s in
      match y with
      | EmptyString => [x]
      | String _ r => x :: split_on fuel' c r
      end
  end.

Definition add_pair (m : gmap string (list string)) (kv : string) : gmap string (list string) :=
  let '(k, v) := break "=" kv in
  match drop_first v with
  | EmptyString => m
  | val => <[k := default [] (m !! k) ++ [val]]> m
  end.

Definition simple_parse_qs (q : string) : gmap string (list string) :=
  foldl add_pair ∅ (split_on (String.length q) "&" q).

Definition digit_of (a : ascii) : option Z :=
  let n := nat_of_ascii a in
  if Nat.leb 48 n && Nat.leb n 57 then Some (Z.of_nat (n - 48)) else None.

Fixpoint digits_from (acc : Z) (s : string) : option Z :=
  match s with
  | EmptyString => Some acc
  | String a r =>
      match digit_of a with
      | Some d => digits_from (10 * acc + d)%Z r
      | None => None
      end
  end.

Definition simple_int (s : string) : option Z :=
  match s with
  | EmptyString => None
  | String "-" EmptyString => None
  | String "-" r => Z.opp <$> digits_from 0 r
  | _ => digits_from 0 s
  end.

(** The sample environment around a transport; no file can be opened. *)
Definition sample_env (t : list Request -> Request -> Exchange) : Env :=
  {| urljoin := String.append;
     urlparse := simple_urlparse;
     parse_qs := simple_parse_qs;
     py_int := simple_int;
     open_rb := fun _ => None;
     transport := t |}.

(** A transport that answers the [i]-th request with the [i]-th response
    of a script, and fails once the script is used up. *)
Definition scripted (script : list Response) : list Request -> Request -> Exchange :=
  fun h _ =>
    match script !! List.length h with
    | Some response => Reply response
    | None => RequestException "connection refused"
    end.

(** A transport that gives every request the same answer. *)
Definition constantly (response : Response) : list Request -> Request -> Exchange :=
  fun _ _ => Reply response.

(** A [200] response with a JSON body. *)
Definition ok_response (body : pyval) : Response :=
  {| status_code := 200; text := ""; json := Some body; headers := ∅ |}.

(** [{"error": {"code": 4, "message": "Application request limit reached"}}]
    with status 429 and the given headers. *)
Definition rate_limit_response (hdrs : gmap string string) : Response :=
  {| status_code := 429; text := "";
     json := Some (PDict {["error" := PDict (<["code" := PInt 4]>
                             {["message" := PStr "Application request limit reached"]})]});
     headers := hdrs |}.

(** The client of the test suite, with retries as configured. *)
Definition sample_client (retry : bool) (max_retries : Z) : BaseClient :=
  new_client "test_token" (Some "test_app_id") None None DEFAULT_TIMEOUT retry max_retries.

Definition empty_world : World := {| heap := ∅; sent := []; slept := [] |}.

(** The sample environment of a server that answers every request with
    that rate-limit response. *)
Definition limited_env (hdrs : gmap string string) : Env :=
  sample_env (constantly (rate_limit_response hdrs)).

(** ** Invariants of computations *)

(** [m] keeps the property [I] of the world, however it ends. *)
Definition stable (I : World -> Prop) {A} (m : M A) : Prop :=
  forall w, I w -> I (snd (m w)).

(** The log of [w] is that of [w0] followed by requests that satisfy [P]. *)
Definition log_from (P : Request -> Prop) (w0 w : World) : Prop :=
  exists new, sent w = sent w0 ++ new /\ Forall P new.

(** ** The caller's dictionary *)

(** [params] after [_paginate] has set the page size where it was absent. *)
Definition with_default_limit (d : dict) : dict :=
  match d !! "limit" with
  | Some _ => d
  | None => <["limit" := PInt DEFAULT_LIMIT]> d
  end.

(** A world with one dictionary object, at location 0. *)
Definition world_with (d : dict) : World := {| heap := {[0 := d]}; sent := []; slept := [] |}.

(** The sample environment of a server that answers every request with an
    empty last page. *)
Definition empty_page_env : Env :=
  sample_env (constantly (ok_response (PDict {["data" := PList []]}))).

(** ** Changing the limit of a traversal *)

Definition set_limit (lim : option Z) (v : Locals) : Locals :=
  {| l_endpoint := l_endpoint v; l_params := l_params v; l_item_factory := l_item_factory v;
     l_limit := lim; l_count := l_count v; l_next_url := l_next_url v |}.

(** The generator [g] with [limit] replaced by [lim]. *)
Definition relimit (lim : option Z) (g : Generator) : Generator :=
  match g with
  | GenCreated endpoint params item_factory _ => GenCreated endpoint params item_factory lim
  | GenSuspended v response rest => GenSuspended (set_limit lim v) response rest
  | GenFinished => GenFinished
  end.

(** The limit never stops the traversal. *)
Definition limit_off (lim : option Z) : Prop := forall count, limit_reached lim count = false.

(** The result of a computation with [f] applied to the value returned. *)
Definition omap {A B} (f : A -> B) (r : outcome A * World) : outcome B * World :=
  (match fst r with
   | Return a => Return (f a)
   | Raise e => Raise e
   | OutOfFuel => OutOfFuel
   end, snd r).

Definition on_generator (f : Generator -> Generator) (step : option pyval * Generator)
    : option pyval * Generator :=
  (fst step, f (snd step)).

Definition on_locals (f : Locals -> Locals) (fetched : pyval * Locals) : pyval * Locals :=
  (fst fetched, f (snd fetched)).

(** ** Scripted pages *)

(** The body of a page: its items and, except on the last page, the
    continuation URL under [paging.next]. *)
Definition page_body (items : list pyval) (next : option string) : pyval :=
  PDict (<["data" := PList items]>
           (<["paging" := PDict (match next with
                                 | Some u => {["next" := PStr u]}
                                 | None => ∅
                                 end)]> ∅)).

(** What [from_dict] makes of such a body. *)
Definition page_response (items : list pyval) (next : option string) : PaginatedResponse :=
  {| data := PList items;
     next_url := match next with Some u => PStr u | None => PNone end;
     has_next := match next with Some _ => true | None => false end |}.

(** The answers of a server that holds [pages], each with its
    continuation URL, and then a [last] page. *)
Definition page_script (pages : list (list pyval * string)) (last : list pyval) : list Response :=
  ((fun p => ok_response (page_body (fst p) (Some (snd p)))) <$> pages)
  ++ [ok_response (page_body last None)].

(** The items of each page, and all the items the server holds. *)
Definition item_lists (pages : list (list pyval * string)) (last : list pyval) : list (list pyval) :=
  (fst <$> pages) ++ [last].

Definition all_items (pages : list (list pyval * string)) (last : list pyval) : list pyval :=
  List.concat (item_lists pages last).

(** The number of pages that must be fetched to find [demand] items
    ([demand >= 1]): pages are fetched until one holds the last item
    asked for, or until there is none left. *)
Fixpoint pages_fetched (demand : nat) (pages : list (list pyval)) : nat :=
  match pages with
  | [] => 0
  | p :: rest =>
      S (if Nat.leb demand (List.length p) then 0
         else pages_fetched (demand - List.length p) rest)
  end.

(** The two-page scenario of the test suite: one item and a continuation
    URL, then one item and no continuation. *)
Definition two_pages : list (list pyval * string) :=
  [([PDict {["id" := PStr "1"]}],
    "https://graph.facebook.com/v19.0/threat_descriptors?after=cursor1")].

Definition second_page : list pyval := [PDict {["id" := PStr "2"]}].

Definition two_page_env : Env := sample_env (scripted (page_script two_pages second_page)).

(** ** The upload as it is built *)

(** The file part that [_upload_file] sends: with a non-empty path, the
    file at that path under [file_name] or the last segment of the path
    ([None] when it cannot be opened); otherwise the buffer under
    [file_name], whatever they are. *)
Definition upload_part (E : Env) (file_path file_content file_name : option string)
    : option (option string * option string) :=
  match file_path with
  | Some (String a s) =>
      match open_rb E (String a s) with
      | Some f => Some (Some (upload_name file_name (String a s)), Some f)
      | None => None
      end
  | _ => Some (file_name, file_content)
  end.

(** The arguments that [_upload_file] hands to [session.post]. *)
Definition upload_request (E : Env) (self : BaseClient) (endpoint : string)
    (data : option nat) (file : option string * option string) (w : World) : Request :=
  {| req_method := "POST";
     req_url := _build_url E self endpoint;
     req_params := None;
     req_data := Some (<["access_token" := PStr (access_token self)]> (param_dict data w));
     req_files := Some file;
     req_timeout := timeout self |}.

(** The sample environment with one file on disk. *)
Definition file_env (t : list Request -> Request -> Exchange) : Env :=
  {| urljoin := String.append;
     urlparse := simple_urlparse;
     parse_qs := simple_parse_qs;
     py_int := simple_int;
     open_rb := fun p => if String.eqb p "/tmp/sample.bin" then Some "on disk" else None;
     transport := t |}.

(** A server that answers every request "rate limited, retry after 7
    seconds". *)
Definition slow_down_env : Env := limited_env {["Retry-After" := "7"]}.

(** ** Answers without error envelope *)

(** The response has a JSON object as body, without ["error"] key. *)
Definition error_free (response : Response) (body : dict) : Prop :=
  json response = Some (PDict body) /\ body !! "error" = None.

(** The failure raised for a body that is not JSON. *)
Definition not_json_error (response : Response) : ApiError :=
  if Z.leb 400 (status_code response) then
    {| cls := ThreatExchangeError;
       message := PStr ("API error: " +:+ pretty (status_code response) +:+ " - " +:+ text response);
       code := PInt (status_code response); details := ∅; retry_after := None |}
  else
    {| cls := ThreatExchangeError; message := PStr "Invalid JSON response from API";
       code := PNone; details := ∅; retry_after := None |}.

(** A [404] answer whose body is a JSON object without error envelope. *)
Definition not_found_page : Response :=
  {| status_code := 404; text := ""; json := Some (PDict {["id" := PStr "12345"]}); headers := ∅ |}.

(** A [429] answer whose body is not JSON. *)
Definition too_many_requests_html : Response :=
  {| status_code := 429; text := "<html>slow down</html>"; json := None;
     headers := {["Retry-After" := "7"]} |}.

(** The failure, if any, that an exchange is by itself: the transport
    failed, or the answer is not JSON. *)
Definition exchange_failure (x : Exchange) : option ApiError :=
  match x with
  | RequestException e =>
      Some {| cls := ThreatExchangeError; message := PStr ("Request failed: " +:+ e);
              code := PNone; details := ∅; retry_after := None |}
  | Reply response =>
      match json response with
      | None => Some (not_json_error response)
      | Some _ => None
      end
  end.

(** Two rate-limit answers ("retry after 7", then no header), then a
    success. *)
Definition recovering_script : list Response :=
  [rate_limit_response {["Retry-After" := "7"]}; rate_limit_response ∅;
   ok_response (PDict {["id" := PStr "12345"]})].

(** ** Item factories *)

(** [item_factory(item)], and the item itself where there is no factory. *)
Definition apply_factory (item_factory : option (pyval -> outcome pyval)) (item : pyval)
    : outcome pyval :=
  match item_factory with
  | Some f => f item
  | None => Return item
  end.

(** A sample factory, [lambda item: item.get("id", "")]: the ["id"] of an
    item, [""] when the item has none; an item that is not a dictionary
    raises. *)
Definition id_of (item : pyval) : outcome pyval := py_get item "id" (PStr "").

(** ** The variables of a suspended traversal *)

(** A step of a traversal whose limit is [lim] and whose count is [c]
    either yields an item and suspends with that limit and that count, or
    ends the traversal. *)
Definition step_keeps (lim : option Z) (c : Z) (step : option pyval * Generator) : Prop :=
  match step with
  | (Some _, GenSuspended v _ _) => l_limit v = lim /\ l_count v = c
  | (None, GenFinished) => True
  | _ => False
  end.

(** ** The first request of a traversal *)

(** The request for the first page: a [GET] of the endpoint with the
    caller's parameters, the page size where they have none, and the
    token. *)
Definition first_page_request (E : Env) (self : BaseClient) (endpoint : string)
    (params : option nat) (w : World) : Request :=
  {| req_method := "GET";
     req_url := _build_url E self endpoint;
     req_params := Some (<["access_token" := PStr (access_token self)]>
                           (with_default_limit (param_dict params w)));
     req_data := None;
     req_files := None;
     req_timeout := timeout self |}.

(** * Properties *)

(** ** The monad *)

Lemma bind_lift_Return {A B} (o : outcome A) (a : A) (k : A -> M B) (w : World) :
  o = Return a -> bind (lift o) k w = k a w.
Proof. intros ->. reflexivity. Qed.

Lemma bind_ret {A B} (a : A) (k : A -> M B) (w : World) : bind (ret a) k w = k a w.
Proof. reflexivity. Qed.

(** ** Values *)

Lemma Z_eqb_bool_decide (a b : Z) : Z.eqb a b = bool_decide (a = b).
Proof.
  destruct (Z.eqb_spec a b); symmetry;
    [by apply bool_decide_eq_true | by apply bool_decide_eq_false].
Qed.

Lemma py_in_ints_int (c : Z) (l : list Z) : py_in_ints (PInt c) l = bool_decide (c ∈ l).
Proof.
  induction l as [|x l IH].
  - symmetry. apply bool_decide_eq_false, not_elem_of_nil.
  - unfold py_in_ints in *. cbn [existsb py_eq_int]. rewrite IH.
    destruct (Z.eqb_spec c x) as [->|Hne]; cbn [orb].
    + symmetry. apply bool_decide_eq_true. left.
    + apply bool_decide_ext. rewrite elem_of_cons. tauto.
Qed.

Lemma py_eq_int_int (c n : Z) : py_eq_int (PInt c) n = bool_decide (c = n).
Proof.
  simpl. destruct (Z.eqb_spec c n); symmetry;
    [by apply bool_decide_eq_true | by apply bool_decide_eq_false].
Qed.



(** ** Error classification *)

(** C3.  For an error envelope with numeric code [c], message [msg] and
    HTTP status [status], the response handler raises exactly the typed
    failure that the priority table [spec_rules] selects (first match wins:
    rate limit, authentication, not found, permission, validation, generic),
    with the envelope's message and code, and for the generic class the whole
    envelope as details; the only other course is the retry on a rate-limit
    classification while the retry budget lasts.  A code of 4, 17 or 613 is
    classified as a rate limit whatever the message and the HTTP status. *)
Theorem handle_response_classifies (E : Env) (self : BaseClient)
    (retry : string -> string -> option nat -> option nat -> Z -> M pyval)
    (c : Z) (msg : string) (status : Z) (extra rest : dict) (txt : string)
    (hdrs : gmap string string) (method endpoint : string) (params data : option nat)
    (retry_count : Z) (w : World) :
  let error := <["code" := PInt c]> (<["message" := PStr msg]> extra) in
  let response := {| status_code := status; text := txt;
                     json := Some (PDict (<["error" := PDict error]> rest));
                     headers := hdrs |} in
  let k := spec_classify {| env_code := c; env_message := msg; env_status := status |} in
  _handle_response E self retry response method endpoint params data retry_count w =
    (if is_class k RateLimitError && retry_on_rate_limit self
        && Z.ltb retry_count (max_retries self)
     then (let* _ := time_sleep (_get_retry_after E response) in
           retry method endpoint params data (retry_count + 1)%Z) w
     else (Raise (ApiExn {| cls := k; message := PStr msg; code := PInt c;
                            details := if is_class k ThreatExchangeError then error else ∅;
                            retry_after := if is_class k RateLimitError
                                           then Some (_get_retry_after E response) else None |}),
           w))
  /\ Forall (fun c' => spec_classify {| env_code := c'; env_message := msg; env_status := status |}
                       = RateLimitError) [4; 17; 613]%Z.
Proof.
  intros error response k. split; [|repeat constructor].
  match goal with |- _ = ?r => set (rhs := r) end.
  unfold _handle_response.
  change (json response) with (Some (PDict (<["error" := PDict error]> rest))).
  cbv beta iota.
  rewrite (bind_lift_Return _ true)
    by (cbn; by rewrite lookup_insert_eq).
  rewrite (bind_lift_Return _ (PDict error))
    by (cbn; by rewrite lookup_insert_eq).
  rewrite (bind_lift_Return _ (PInt c))
    by (cbn; unfold error; by rewrite lookup_insert_eq).
  rewrite (bind_lift_Return _ (PStr msg))
    by (cbn; unfold error; rewrite lookup_insert_ne by done; by rewrite lookup_insert_eq).
  rewrite !py_in_ints_int, !py_eq_int_int, Z_eqb_bool_decide.
  change (status_code response) with status.
  subst rhs k. unfold spec_classify, spec_rules, first_match.
  cbn [env_code env_message env_status].
  destruct (bool_decide (c ∈ [4; 17; 613]%Z)).
  - rewrite bind_ret. cbn [orb is_class andb].
    destruct (retry_on_rate_limit self && (retry_count <? max_retries self)%Z); reflexivity.
  - cbn [orb]. unfold mentions_rate_limit.
    rewrite (bind_lift_Return _ (contains "rate limit" (lower msg))) by reflexivity.
    destruct (contains "rate limit" (lower msg)).
    + cbn [is_class andb].
      destruct (retry_on_rate_limit self && (retry_count <? max_retries self)%Z); reflexivity.
    + destruct (bool_decide (c ∈ [190; 102; 463; 467]%Z)); [reflexivity|].
      destruct (bool_decide (c = 803%Z) || bool_decide (status = 404%Z)); [reflexivity|].
      destruct (bool_decide (c ∈ [10; 200; 294]%Z)); [reflexivity|].
      destruct (bool_decide (c = 100%Z)); reflexivity.
Qed.

(** ** Response envelope parser *)

(** C4 (as amended).  For a body whose ["paging"] entry is absent or a
    dictionary, [from_dict] without item factory returns a page: its data
    is the value under ["data"], or the empty list when that key is absent;
    its continuation reference is [paging.next], or [None] when missing;
    and [has_next] holds exactly when the reference is not [None]. *)
Theorem from_dict_returns_page (body : dict) (Hpaging : paging_is_dict body) :
  exists page,
    from_dict (PDict body) None = Return page
    /\ data page = default (PList []) (body !! "data")
    /\ next_url page = paging_next body
    /\ (has_next page = true <-> next_url page <> PNone).
Proof.
  unfold from_dict, paging_is_dict, paging_next in *. cbn [py_get obind].
  destruct (body !! "paging") as [[| | | | |p]|] eqn:Hp; try done; cbn [default py_get obind].
  - eexists. split; [reflexivity|]. cbn [data next_url has_next].
    repeat split; try done.
    + intros H Hn. rewrite Hn in H. discriminate.
    + intros H. destruct (p !! "next") as [[]|]; done.
  - eexists. split; [reflexivity|]. cbn. rewrite lookup_empty. cbn.
    repeat split; done.
Qed.

(** The body [two_items_body] gives its two items and no continuation. *)
Lemma from_dict_returns_page_witness :
  paging_is_dict two_items_body
  /\ exists page,
       from_dict (PDict two_items_body) None = Return page
       /\ data page = default (PList []) (two_items_body !! "data")
       /\ next_url page = paging_next two_items_body
       /\ (has_next page = true <-> next_url page <> PNone).
Proof.
  split; [vm_compute; exact I|].
  apply (from_dict_returns_page two_items_body). vm_compute. exact I.
Defined.

(** C4 (as stated) fails: the body [{"paging": null}] makes [from_dict]
    raise [AttributeError] ([None] has no [get]). *)
Lemma from_dict_raises_on_null_paging :
  from_dict (PDict {["paging" := PNone]}) None = Raise (PyExn "AttributeError")
  /\ ~ exists page, from_dict (PDict {["paging" := PNone]}) None = Return page.
Proof.
  assert (H : from_dict (PDict {["paging" := PNone]}) None = Raise (PyExn "AttributeError"))
    by (vm_compute; reflexivity).
  split; [exact H|]. intros [page Hpage]. rewrite H in Hpage. discriminate.
Qed.

(** A value under ["data"] that is not a list is kept as it is. *)
Lemma from_dict_keeps_malformed_data :
  from_dict (PDict {["data" := PStr "oops"]}) None
  = Return {| data := PStr "oops"; next_url := PNone; has_next := false |}.
Proof. vm_compute. reflexivity. Qed.

(** ** One step of [_request] *)

Section RequestStep.

Context (E : Env) (self : BaseClient).

Lemma or_new_store (params : option nat) (w : World) {B} (k : nat -> M B) :
  bind (or_new params)
       (fun l => bind (store l "access_token" (PStr (access_token self))) (fun _ => k l)) w
  = k (param_loc params w) (prepared self params w).
Proof.
  unfold prepared, param_loc, param_dict.
  destruct params as [l|]; unfold or_new, bind, deref, alloc, store, ret; cbn;
    [destruct (dict_truthy (default ∅ (heap w !! l))); cbn|];
    rewrite ?lookup_insert_eq; cbn; rewrite ?insert_insert_eq; reflexivity.
Qed.

(** [_request] with fuel left: the token is set, the request is sent, and
    the answer goes to [_handle_response]. *)
Lemma request_fuel_step (fuel : nat) (method endpoint : string) (params data : option nat)
    (retry_count : Z) (w : World) :
  _request_fuel E self (S fuel) method endpoint params data retry_count w =
  let r := built_request E self method endpoint params data w in
  let w' := with_sent (prepared self params w) r in
  match transport E (sent w) r with
  | RequestException e =>
      (Raise (ApiExn (mk_error ThreatExchangeError (PStr ("Request failed: " +:+ e)) PNone None)), w')
  | Reply response =>
      _handle_response E self (_request_fuel E self fuel) response method endpoint
        (Some (param_loc params w)) data retry_count w'
  end.
Proof.
  cbn [_request_fuel]. rewrite or_new_store.
  unfold built_request, with_sent.
  unfold bind at 1, deref at 1.
  assert (Hp : default ∅ (heap (prepared self params w) !! param_loc params w)
               = <["access_token" := PStr (access_token self)]> (param_dict params w)).
  { unfold prepared. cbn [heap]. by rewrite lookup_insert_eq. }
  rewrite Hp.
  destruct (String.eqb method "GET") eqn:Hm.
  - rewrite bind_ret. unfold bind at 1, send at 1. cbn [sent heap slept prepared].
    destruct (transport E (sent w) _); reflexivity.
  - assert (Hd : or_empty data (prepared self params w)
                 = (Return (match data with
                            | Some l => default ∅ (heap (prepared self params w) !! l)
                            | None => ∅
                            end), prepared self params w)).
    { destruct data; reflexivity. }
    unfold bind at 1. rewrite Hd.
    unfold bind at 1, send at 1. cbn [sent heap slept prepared].
    destruct (transport E (sent w) _); reflexivity.
Qed.

(** The handler returns or raises without touching the world. *)
Local Ltac stays H := left; eexists; (split; [|exact H]); discriminate.

(** What [_handle_response] can do: leave the world as it is and return or
    raise, or, while the retry budget lasts, sleep and call [retry]. *)
Lemma handle_response_cases
    (retry : string -> string -> option nat -> option nat -> Z -> M pyval)
    (response : Response) (method endpoint : string) (params data : option nat)
    (retry_count : Z) (w : World) :
  (exists o, o <> OutOfFuel
             /\ _handle_response E self retry response method endpoint params data retry_count w = (o, w))
  \/ (retry_on_rate_limit self = true /\ (retry_count < max_retries self)%Z
      /\ _handle_response E self retry response method endpoint params data retry_count w
         = bind (time_sleep (_get_retry_after E response))
                (fun _ => retry method endpoint params data (retry_count + 1)%Z) w).
Proof.
  remember (_handle_response E self retry response method endpoint params data retry_count w)
    as r eqn:Hr.
  unfold _handle_response in Hr.
  destruct (json response) as [result|];
    [|destruct (400 <=? status_code response)%Z; stays Hr].
  unfold bind at 1, lift at 1 in Hr.
  destruct (has_error_key result) as [[|]|e|] eqn:Hk;
    [| stays Hr | stays Hr | by destruct result].
  unfold bind at 1, lift at 1 in Hr.
  destruct (getitem result "error") as [error|e|] eqn:Hg;
    [| stays Hr | destruct result as [| | | | |m]; try done; cbn in Hg; by destruct (m !! "error")].
  unfold bind at 1, lift at 1 in Hr.
  destruct (py_get error "code" (PInt 0)) as [error_code|e|] eqn:Hc;
    [| stays Hr | by destruct error].
  unfold bind at 1, lift at 1 in Hr.
  destruct (py_get error "message" (PStr "Unknown error")) as [error_message|e|] eqn:Hm;
    [| stays Hr | by destruct error].
  assert (Hrl : exists o, o <> OutOfFuel /\
            (if py_in_ints error_code [4; 17; 613]%Z then ret true
             else lift (mentions_rate_limit error_message)) w = (o, w)).
  { destruct (py_in_ints error_code [4; 17; 613]%Z); [eexists; (split; [|reflexivity]); done|].
    unfold lift, mentions_rate_limit.
    destruct error_message; eexists; (split; [|reflexivity]); done. }
  destruct Hrl as (o & Ho & Hrl). unfold bind at 1 in Hr. rewrite Hrl in Hr.
  destruct o as [[|]|e|]; [| | stays Hr | done].
  - destruct (retry_on_rate_limit self) eqn:Hon; cbn [andb] in Hr; [|stays Hr].
    destruct (Z.ltb_spec retry_count (max_retries self)); [|stays Hr].
    right. repeat split; done.
  - destruct (py_in_ints error_code [190; 102; 463; 467]%Z); [stays Hr|].
    destruct (py_eq_int error_code 803 || (status_code response =? 404)%Z); [stays Hr|].
    destruct (py_in_ints error_code [10; 200; 294]%Z); [stays Hr|].
    destruct (py_eq_int error_code 100); stays Hr.
Qed.

End RequestStep.

(** ** Properties of [_request] *)

Section RequestProps.

Context (E : Env) (self : BaseClient).

Lemma dict_truthy_insert (k : string) (v : pyval) (d : dict) : dict_truthy (<[k := v]> d) = true.
Proof.
  unfold dict_truthy. apply negb_true_iff, Nat.eqb_neq.
  rewrite map_size_ne_0_lookup. exists k. rewrite lookup_insert_eq. eauto.
Qed.

Lemma prepared_again (params : option nat) (w w' : World) :
  heap w' = heap (prepared self params w) ->
  heap (prepared self (Some (param_loc params w)) w') = heap w'.
Proof.
  intros Hh.
  assert (Hl : heap w' !! param_loc params w
               = Some (<["access_token" := PStr (access_token self)]> (param_dict params w))).
  { rewrite Hh. unfold prepared. cbn [heap]. by rewrite lookup_insert_eq. }
  revert Hl. generalize (param_loc params w) (param_dict params w). intros l d Hl.
  unfold prepared, param_loc, param_dict. cbn [heap].
  rewrite Hl. cbn [default from_option id]. rewrite dict_truthy_insert, insert_insert_eq.
  by apply insert_id.
Qed.

Lemma built_request_carries_token (method endpoint : string) (params data : option nat) (w : World) :
  carries_token self method w data (built_request E self method endpoint params data w).
Proof.
  unfold carries_token, built_request. cbn [req_method req_params req_data].
  split; [reflexivity|].
  destruct (String.eqb method "GET").
  { split; [|reflexivity]. eexists. split; [reflexivity|]. by rewrite lookup_insert_eq. }
  split; [reflexivity|]. eexists. split; [reflexivity|].
  destruct data as [l|].
  2:{ left. rewrite lookup_union_r by apply lookup_empty. by rewrite lookup_insert_eq. }
  destruct (default ∅ (heap (prepared self params w) !! l) !! "access_token") as [v|] eqn:Hv.
  2:{ left. rewrite lookup_union_r by done. by rewrite lookup_insert_eq. }
  rewrite (lookup_union_Some_l _ _ _ _ Hv).
  unfold prepared in Hv. cbn [heap] in Hv.
  destruct (decide (param_loc params w = l)) as [<-|Hne].
  - rewrite lookup_insert_eq in Hv. cbn [default from_option id] in Hv. rewrite lookup_insert_eq in Hv.
    left. done.
  - rewrite lookup_insert_ne in Hv by done.
    destruct (heap w !! l) as [d0|] eqn:Hl; cbn [default from_option id] in Hv.
    + right. exists v. split; [|done]. exists l, d0. done.
    + by rewrite lookup_empty in Hv.
Qed.

Lemma carries_token_prepared (method : string) (params data : option nat) (w w' : World)
    (r : Request) :
  heap w' = heap (prepared self params w) ->
  carries_token self method w' data r -> carries_token self method w data r.
Proof.
  intros Hh [Hm Hr]. split; [done|].
  destruct (String.eqb method "GET"); [done|].
  destruct Hr as (Hp & d & Hd & Ht). split; [done|]. exists d. split; [done|].
  destruct Ht as [Ht|(v & (l & d0 & -> & Hl & Hv) & Ht)]; [by left|].
  rewrite Hh in Hl. unfold prepared in Hl. cbn [heap] in Hl.
  destruct (decide (param_loc params w = l)) as [<-|Hne].
  - rewrite lookup_insert_eq in Hl. injection Hl as <-.
    rewrite lookup_insert_eq in Hv. injection Hv as <-. by left.
  - rewrite lookup_insert_ne in Hl by done.
    right. exists v. split; [|done]. by exists l, d0.
Qed.

(** The requests of a call extend the log, and each carries the token in
    the way of its verb. *)
Lemma request_fuel_sent (fuel : nat) (method endpoint : string) (params data : option nat)
    (retry_count : Z) (w : World) :
  exists new,
    sent (snd (_request_fuel E self fuel method endpoint params data retry_count w)) = sent w ++ new
    /\ Forall (carries_token self method w data) new
    /\ (fuel <> 0 -> new <> []).
Proof.
  revert params retry_count w.
  induction fuel as [|fuel IH]; intros params retry_count w.
  { exists []. cbn. rewrite app_nil_r. repeat split; [constructor | done]. }
  rewrite request_fuel_step. cbv zeta.
  pose proof (built_request_carries_token method endpoint params data w) as Hr.
  set (r := built_request E self method endpoint params data w) in *.
  set (w1 := with_sent (prepared self params w) r).
  assert (Hone : forall o : outcome pyval,
            exists new, sent (snd (o, w1)) = sent w ++ new
                        /\ Forall (carries_token self method w data) new
                        /\ (S fuel <> 0 -> new <> [])).
  { intros o. exists [r]. repeat split; [by constructor | done]. }
  destruct (transport E (sent w) r) as [e|response]; [apply Hone|].
  destruct (handle_response_cases E self (_request_fuel E self fuel) response method endpoint
              (Some (param_loc params w)) data retry_count w1)
    as [(o & _ & ->)|(_ & _ & ->)]; [apply Hone|].
  unfold bind, time_sleep.
  destruct (_get_retry_after E response <? 0)%Z; [apply Hone|].
  match goal with |- context [_request_fuel E self fuel _ _ _ _ _ ?w'] => set (w2 := w') end.
  destruct (IH (Some (param_loc params w)) (retry_count + 1)%Z w2) as (new & Hs & Hall & _).
  exists (r :: new). rewrite Hs. cbn [sent w2 w1 with_sent prepared].
  rewrite <- app_assoc. repeat split; [|done].
  constructor; [done|].
  eapply Forall_impl; [exact Hall|]. intros r'.
  apply (carries_token_prepared method params data w w2). reflexivity.
Qed.

(** The first request of a call is the one built from its arguments. *)
Lemma request_fuel_first (fuel : nat) (method endpoint : string) (params data : option nat)
    (retry_count : Z) (w : World) :
  exists rest,
    sent (snd (_request_fuel E self (S fuel) method endpoint params data retry_count w))
    = sent w ++ built_request E self method endpoint params data w :: rest.
Proof.
  rewrite request_fuel_step. cbv zeta.
  set (r := built_request E self method endpoint params data w).
  set (w1 := with_sent (prepared self params w) r).
  assert (Hone : forall o : outcome pyval, exists rest, sent (snd (o, w1)) = sent w ++ r :: rest).
  { intros o. exists []. reflexivity. }
  destruct (transport E (sent w) r) as [e|response]; [apply Hone|].
  destruct (handle_response_cases E self (_request_fuel E self fuel) response method endpoint
              (Some (param_loc params w)) data retry_count w1)
    as [(o & _ & ->)|(_ & _ & ->)]; [apply Hone|].
  unfold bind, time_sleep.
  destruct (_get_retry_after E response <? 0)%Z; [apply Hone|].
  match goal with |- context [_request_fuel E self fuel ?m ?e ?p ?d ?rc ?w'] =>
    destruct (request_fuel_sent fuel m e p d rc w') as (new & Hs & _)
  end.
  exists new. rewrite Hs. cbn [sent w1 with_sent prepared]. by rewrite <- app_assoc.
Qed.

(** The only lasting change to the heap is the token set in the
    parameter object. *)
Lemma request_fuel_heap (fuel : nat) (method endpoint : string) (params data : option nat)
    (retry_count : Z) (w : World) :
  heap (snd (_request_fuel E self (S fuel) method endpoint params data retry_count w))
  = heap (prepared self params w).
Proof.
  revert params retry_count w.
  induction fuel as [|fuel IH]; intros params retry_count w;
    rewrite request_fuel_step; cbv zeta;
    set (r := built_request E self method endpoint params data w);
    set (w1 := with_sent (prepared self params w) r);
    (destruct (transport E (sent w) r) as [e|response]; [reflexivity|]);
    match goal with |- context [_handle_response E self ?f] =>
      destruct (handle_response_cases E self f response method endpoint
                  (Some (param_loc params w)) data retry_count w1)
        as [(o & _ & ->)|(_ & _ & ->)]; [reflexivity|]
    end;
    unfold bind, time_sleep;
    (destruct (_get_retry_after E response <? 0)%Z; [reflexivity|]).
  - reflexivity.
  - rewrite IH. rewrite (prepared_again params w) by reflexivity. reflexivity.
Qed.

(** [request_depth] is fuel enough: [_request] returns or raises. *)
Lemma request_fuel_total (n : nat) (method endpoint : string) (params data : option nat)
    (retry_count : Z) (w : World) :
  Z.to_nat (max_retries self - retry_count) = n ->
  fst (_request_fuel E self (S n) method endpoint params data retry_count w) <> OutOfFuel.
Proof.
  revert params retry_count w.
  induction n as [|n IH]; intros params retry_count w Hn;
    rewrite request_fuel_step; cbv zeta;
    set (r := built_request E self method endpoint params data w);
    set (w1 := with_sent (prepared self params w) r);
    (destruct (transport E (sent w) r) as [e|response]; [done|]);
    match goal with |- context [_handle_response E self ?f] =>
      destruct (handle_response_cases E self f response method endpoint
                  (Some (param_loc params w)) data retry_count w1)
        as [(o & Ho & ->)|(_ & Hlt & ->)]; [done|]
    end.
  - lia.
  - unfold bind, time_sleep.
    destruct (_get_retry_after E response <? 0)%Z; [done|].
    apply IH. lia.
Qed.

Lemma request_total (method endpoint : string) (params data : option nat)
    (retry_count : Z) (w : World) :
  fst (_request E self method endpoint params data retry_count w) <> OutOfFuel.
Proof. by apply request_fuel_total. Qed.

(** [_handle_response] uses [retry] only for the call with
    [retry_count + 1], and only while the budget lasts. *)
Lemma handle_response_ext
    (retry retry' : string -> string -> option nat -> option nat -> Z -> M pyval)
    (response : Response) (method endpoint : string) (params data : option nat)
    (retry_count : Z) (w : World) :
  ((retry_count < max_retries self)%Z ->
   forall w', retry method endpoint params data (retry_count + 1)%Z w'
              = retry' method endpoint params data (retry_count + 1)%Z w') ->
  _handle_response E self retry response method endpoint params data retry_count w
  = _handle_response E self retry' response method endpoint params data retry_count w.
Proof.
  intros Hext. unfold _handle_response.
  destruct (json response) as [result|]; [|reflexivity].
  unfold bind, lift.
  destruct (has_error_key result) as [[|]|e|]; try reflexivity.
  destruct (getitem result "error") as [error|e|]; try reflexivity.
  destruct (py_get error "code" (PInt 0)) as [error_code|e|]; try reflexivity.
  destruct (py_get error "message" (PStr "Unknown error")) as [error_message|e|]; try reflexivity.
  destruct ((if py_in_ints error_code [4; 17; 613]%Z then ret true
             else fun w0 => (mentions_rate_limit error_message, w0)) w) as [[[|]|e|] w1];
    try reflexivity.
  destruct (retry_on_rate_limit self); cbn [andb]; [|reflexivity].
  destruct (Z.ltb_spec retry_count (max_retries self)); [|reflexivity].
  unfold time_sleep. destruct (_get_retry_after E response <? 0)%Z; [reflexivity|].
  by apply Hext.
Qed.

(** The recursion of the source: [_request] sets the token, sends the
    request, and hands the answer to [_handle_response], which calls
    [_request] again on a rate limit. *)
Lemma request_unfold (method endpoint : string) (params data : option nat)
    (retry_count : Z) (w : World) :
  _request E self method endpoint params data retry_count w =
  let r := built_request E self method endpoint params data w in
  let w' := with_sent (prepared self params w) r in
  match transport E (sent w) r with
  | RequestException e =>
      (Raise (ApiExn (mk_error ThreatExchangeError (PStr ("Request failed: " +:+ e)) PNone None)),
       w')
  | Reply response =>
      _handle_response E self (_request E self) response method endpoint
        (Some (param_loc params w)) data retry_count w'
  end.
Proof.
  unfold _request at 1, request_depth. rewrite request_fuel_step. cbv zeta.
  destruct (transport E (sent w) _) as [e|response]; [reflexivity|].
  apply handle_response_ext. intros Hlt w'. unfold _request, request_depth.
  replace (Z.to_nat (max_retries self - retry_count))
    with (S (Z.to_nat (max_retries self - (retry_count + 1)))) by lia.
  reflexivity.
Qed.

End RequestProps.

(** ** The token in outgoing requests *)

(** C1 (as amended).  Every call of [_request] issues at least one request,
    and each request it issues carries the access token in the way of its
    verb: a [GET] has it among its query parameters and no body; any other
    verb ([POST], [DELETE]) has no query parameters at all and carries the
    token in the form-encoded body, unless the caller's body parameters
    define ["access_token"] themselves, which then takes its place. *)
Theorem request_carries_token (E : Env) (self : BaseClient) (method endpoint : string)
    (params data : option nat) (retry_count : Z) (w : World) :
  exists new,
    sent (snd (_request E self method endpoint params data retry_count w)) = sent w ++ new
    /\ new <> []
    /\ Forall (carries_token self method w data) new.
Proof.
  destruct (request_fuel_sent E self (request_depth self retry_count) method endpoint
              params data retry_count w) as (new & Hs & Hall & Hne).
  exists new. repeat split; [done | by apply Hne | done].
Qed.

(** C1 (as stated) fails: the request of a [POST] has no query parameters;
    the token is in its body only. *)
Lemma post_has_no_query_parameters :
  exists r,
    sent (snd (_post (sample_env (constantly (ok_response (PDict {["id" := PStr "new123"]}))))
                     (sample_client false 3) "threat_descriptors" None None empty_world)) = [r]
    /\ req_method r = "POST"
    /\ req_params r = None
    /\ req_data r = Some {["access_token" := PStr "test_token"]}
    /\ ~ token_in_query (sample_client false 3) r.
Proof.
  eexists. split; [vm_compute; reflexivity|].
  repeat split; try (vm_compute; reflexivity).
  intros (d & Hd & _). discriminate Hd.
Qed.

(** The same holds for [DELETE]. *)
Lemma delete_has_no_query_parameters :
  exists r,
    sent (snd (_delete (sample_env (constantly (ok_response (PDict {["success" := PBool true]}))))
                       (sample_client false 3) "12345" None empty_world)) = [r]
    /\ req_method r = "DELETE"
    /\ req_params r = None
    /\ req_data r = Some {["access_token" := PStr "test_token"]}.
Proof.
  eexists. split; [vm_compute; reflexivity|].
  repeat split; vm_compute; reflexivity.
Qed.

(** ** Rate limits and retries *)

Section Retries.

Context (E : Env) (self : BaseClient).

(** On a rate-limit envelope the handler either sleeps and retries, or
    raises [RateLimitError] with the delay of this response. *)
Lemma handle_response_rate_limited
    (retry : string -> string -> option nat -> option nat -> Z -> M pyval)
    (response : Response) (method endpoint : string) (params data : option nat)
    (retry_count : Z) (w : World) :
  rate_limit_envelope response ->
  exists msg c,
    _handle_response E self retry response method endpoint params data retry_count w
    = if retry_on_rate_limit self && (retry_count <? max_retries self)%Z
      then bind (time_sleep (_get_retry_after E response))
                (fun _ => retry method endpoint params data (retry_count + 1)%Z) w
      else (Raise (ApiExn (mk_rate_limit msg c (_get_retry_after E response))), w).
Proof.
  intros (result & error & Hj & He & Hrl).
  exists (default (PStr "Unknown error") (error !! "message")), (default (PInt 0) (error !! "code")).
  unfold _handle_response. rewrite Hj.
  rewrite (bind_lift_Return _ true) by (cbn; rewrite He; reflexivity).
  rewrite (bind_lift_Return _ (PDict error)) by (cbn; by rewrite He).
  rewrite (bind_lift_Return _ (default (PInt 0) (error !! "code"))) by reflexivity.
  rewrite (bind_lift_Return _ (default (PStr "Unknown error") (error !! "message"))) by reflexivity.
  assert (Hb : (if py_in_ints (default (PInt 0) (error !! "code")) [4; 17; 613]%Z
                then ret true
                else lift (mentions_rate_limit (default (PStr "Unknown error") (error !! "message")))) w
               = (Return true, w)).
  { destruct (py_in_ints (default (PInt 0) (error !! "code")) [4; 17; 613]%Z); [reflexivity|].
    destruct Hrl as [Hrl|(s & Hs & Hc)]; [discriminate|].
    rewrite Hs. cbn. unfold lift. by rewrite Hc. }
  unfold bind at 1. rewrite Hb.
  destruct (retry_on_rate_limit self && (retry_count <? max_retries self)%Z); reflexivity.
Qed.

Hypothesis Hlimited : always_rate_limited E.
Hypothesis Hdelays : delays_non_negative E self.

(** Against a server that only answers with rate limits, a call makes one
    request, then one more after each sleep while the budget lasts, and
    raises [RateLimitError] with the delay of the last answer. *)
Lemma request_fuel_rate_limited (n : nat) :
  forall (fuel : nat) (method endpoint : string) (params data : option nat)
         (retry_count : Z) (w : World),
    n = (if retry_on_rate_limit self then Z.to_nat (max_retries self - retry_count) else 0) ->
    n < fuel ->
    exists e h r response w',
      _request_fuel E self fuel method endpoint params data retry_count w = (Raise (ApiExn e), w')
      /\ cls e = RateLimitError
      /\ sent w' = h ++ [r]
      /\ transport E h r = Reply response
      /\ retry_after e = Some (_get_retry_after E response)
      /\ List.length (sent w') = List.length (sent w) + S n
      /\ List.length (slept w') = List.length (slept w) + n.
Proof.
  induction n as [|n IH]; intros fuel method endpoint params data retry_count w Hn Hfuel;
    (destruct fuel as [|fuel]; [lia|]);
    rewrite request_fuel_step; cbv zeta;
    set (r := built_request E self method endpoint params data w);
    set (w1 := with_sent (prepared self params w) r);
    destruct (Hlimited (sent w) r) as (response & Ht & Henv);
    rewrite Ht;
    destruct (handle_response_rate_limited (_request_fuel E self fuel) response method endpoint
                (Some (param_loc params w)) data retry_count w1 Henv) as (msg & c & ->).
  - assert (Hoff : retry_on_rate_limit self && (retry_count <? max_retries self)%Z = false).
    { destruct (retry_on_rate_limit self); [|reflexivity]. cbn.
      apply Z.ltb_ge. lia. }
    rewrite Hoff.
    eexists _, (sent w), r, response, w1.
    repeat split; try done; cbn; rewrite ?length_app; cbn; lia.
  - assert (Hon : retry_on_rate_limit self = true)
      by (destruct (retry_on_rate_limit self); [reflexivity | discriminate]).
    rewrite Hon in Hn |- *.
    assert (Hlt : (retry_count < max_retries self)%Z) by lia.
    rewrite (proj2 (Z.ltb_lt _ _) Hlt). cbn [andb].
    unfold bind, time_sleep.
    rewrite (proj2 (Z.ltb_ge _ _) (Hdelays _ _ _ Ht)).
    match goal with |- context [_request_fuel E self fuel _ _ _ _ _ ?w'] => set (w2 := w') end.
    destruct (IH fuel method endpoint (Some (param_loc params w)) data (retry_count + 1)%Z w2)
      as (e & h & r' & response' & w' & Hrun & Hcls & Hs & Ht' & Hra & Hlen & Hsl);
      [rewrite Hon; lia | lia |].
    exists e, h, r', response', w'. rewrite Hrun.
    repeat split; try done; rewrite ?Hlen, ?Hsl; cbn; rewrite ?length_app; cbn; lia.
Qed.

End Retries.



Lemma sample_always_rate_limited (hdrs : gmap string string) :
  always_rate_limited (limited_env hdrs).
Proof.
  intros h r. eexists. split; [reflexivity|].
  eexists _, _. split; [reflexivity|]. split; [reflexivity|].
  left. reflexivity.
Qed.



(** ** Invariants *)

Lemma stable_ret (I : World -> Prop) {A} (a : A) : stable I (ret a).
Proof. intros w H. exact H. Qed.

Lemma stable_raise (I : World -> Prop) {A} (e : exn) : stable I (@raise A e).
Proof. intros w H. exact H. Qed.

Lemma stable_out_of_fuel (I : World -> Prop) {A} : stable I (@out_of_fuel A).
Proof. intros w H. exact H. Qed.

Lemma stable_lift (I : World -> Prop) {A} (o : outcome A) : stable I (lift o).
Proof. intros w H. exact H. Qed.

Lemma stable_bind (I : World -> Prop) {A B} (m : M A) (k : A -> M B) :
  stable I m -> (forall a, stable I (k a)) -> stable I (bind m k).
Proof.
  intros Hm Hk w H. unfold bind.
  specialize (Hm w H). destruct (m w) as [[a|e|] w']; cbn in *; [by apply Hk | done | done].
Qed.

Lemma log_from_refl (P : Request -> Prop) (w : World) : log_from P w w.
Proof. exists []. by rewrite app_nil_r. Qed.

Lemma log_from_same_sent (P : Request -> Prop) (w0 : World) {A} (m : M A) :
  (forall w, sent (snd (m w)) = sent w) -> stable (log_from P w0) m.
Proof. intros Hm w (new & Hs & Hall). exists new. by rewrite Hm. Qed.

Lemma log_from_extend (P : Request -> Prop) (w0 : World) {A} (m : M A) :
  (forall w, exists new, sent (snd (m w)) = sent w ++ new /\ Forall P new) ->
  stable (log_from P w0) m.
Proof.
  intros Hm w (new & Hs & Hall). destruct (Hm w) as (new' & Hs' & Hall').
  exists (new ++ new'). rewrite Hs', Hs, app_assoc. split; [done|]. by apply Forall_app.
Qed.

Create HintDb stable.

#[local] Hint Resolve stable_ret stable_raise stable_out_of_fuel stable_lift : stable.

(** ** The token on every hop of a traversal *)

Section TokenOnEveryHop.

Context (E : Env) (self : BaseClient).

Lemma get_sends_token (endpoint : string) (params : option nat) (w : World) :
  exists new,
    sent (snd (_get E self endpoint params w)) = sent w ++ new
    /\ Forall (token_in_query self) new.
Proof.
  destruct (request_fuel_sent E self (request_depth self 0) "GET" endpoint params None 0 w)
    as (new & Hs & Hall & _).
  exists new. split; [exact Hs|].
  eapply Forall_impl; [exact Hall|]. intros r [_ Hr]. cbn in Hr. tauto.
Qed.

Lemma fetch_page_log (w0 : World) (v : Locals) :
  stable (log_from (token_in_query self) w0) (fetch_page E self v).
Proof.
  unfold fetch_page.
  destruct (truthy (l_next_url v)).
  - destruct (l_next_url v); auto with stable.
    apply stable_bind; [by apply log_from_same_sent|]. intros params.
    apply stable_bind; [by apply log_from_same_sent|]. intros _.
    apply stable_bind; [|auto with stable].
    apply log_from_extend, get_sends_token.
  - apply stable_bind; [|auto with stable].
    apply log_from_extend, get_sends_token.
Qed.

Lemma for_items_log (w0 : World) (again : Locals -> M (option pyval * Generator))
    (v : Locals) (response : PaginatedResponse) (items : list pyval) :
  (forall v', stable (log_from (token_in_query self) w0) (again v')) ->
  stable (log_from (token_in_query self) w0) (for_items again v response items).
Proof.
  intros Hagain. unfold for_items.
  destruct items; [|auto with stable].
  destruct (negb (has_next response)); auto with stable.
Qed.

Lemma while_true_log (w0 : World) (fuel : nat) (v : Locals) :
  stable (log_from (token_in_query self) w0) (while_true E self fuel v).
Proof.
  revert v. induction fuel as [|fuel IH]; intros v; cbn [while_true]; [auto with stable|].
  apply stable_bind; [apply fetch_page_log|]. intros fetched.
  apply stable_bind; [auto with stable|]. intros response.
  apply stable_bind; [auto with stable|]. intros items.
  by apply for_items_log.
Qed.

Lemma gen_next_log (w0 : World) (fuel : nat) (g : Generator) :
  stable (log_from (token_in_query self) w0) (gen_next E self fuel g).
Proof.
  destruct g as [endpoint params item_factory limit|v response rest|]; cbn [gen_next].
  - apply stable_bind.
    { apply log_from_same_sent. intros w. destruct params as [l|]; [|reflexivity].
      cbn. unfold bind, deref. destruct (dict_truthy _); reflexivity. }
    intros params'. apply stable_bind; [by apply log_from_same_sent|]. intros p.
    apply stable_bind; [|intros _; apply while_true_log].
    destruct (bool_decide _); [auto with stable | by apply log_from_same_sent].
  - destruct (limit_reached _ _); [auto with stable|].
    apply for_items_log. intros v'. apply while_true_log.
  - auto with stable.
Qed.

Lemma drain_log (w0 : World) (n fuel : nat) (g : Generator) :
  stable (log_from (token_in_query self) w0) (drain E self n fuel g).
Proof.
  revert g. induction n as [|n IH]; intros g; cbn [drain]; [auto with stable|].
  apply stable_bind; [apply gen_next_log|]. intros [[item|] g']; cbn [fst snd]; [|auto with stable].
  apply stable_bind; [apply IH | auto with stable].
Qed.

End TokenOnEveryHop.

(** C7.  On every step of a pagination traversal, whatever the state of
    the generator, and over any number of steps, every request the
    traversal issues (first page, continuation hops and retries alike)
    carries the client's access token among its query parameters; on a
    continuation hop the parameters are those of the continuation URL's
    query string, flattened, with the token set over them. *)
Theorem paginate_requests_carry_token (E : Env) (self : BaseClient) :
  (forall (fuel : nat) (g : Generator) (w : World),
     exists new,
       sent (snd (gen_next E self fuel g w)) = sent w ++ new
       /\ Forall (token_in_query self) new)
  /\ (forall (n fuel : nat) (g : Generator) (w : World),
        exists new,
          sent (snd (drain E self n fuel g w)) = sent w ++ new
          /\ Forall (token_in_query self) new)
  /\ (forall (v : Locals) (a : ascii) (s : string) (w : World),
        let u := String a s in
        exists r rest,
          sent (snd (fetch_page E self (with_next_url v (PStr u)) w)) = sent w ++ r :: rest
          /\ req_params r
             = Some (<["access_token" := PStr (access_token self)]>
                       (flatten_single <$> parse_qs E (query (urlparse E u))))).
Proof.
  split; [|split].
  - intros fuel g w. apply (gen_next_log E self w fuel g w), log_from_refl.
  - intros n fuel g w. apply (drain_log E self w n fuel g w), log_from_refl.
  - intros v a s w u. unfold fetch_page.
    change (truthy (l_next_url (with_next_url v (PStr u)))) with true.
    change (l_next_url (with_next_url v (PStr u))) with (PStr u). cbv iota.
    unfold bind at 1, alloc at 1. cbn [fst snd].
    unfold bind at 1, store at 1. cbn [heap sent slept].
    rewrite lookup_insert_eq. cbn [default from_option id]. rewrite insert_insert_eq.
    unfold bind at 1.
    match goal with |- context [_get E self ?e ?p ?w'] =>
      destruct (request_fuel_first E self (Z.to_nat (max_retries self - 0)) "GET" e p None 0 w')
        as (rest & Hs);
      change (_get E self e p w')
        with (_request_fuel E self (S (Z.to_nat (max_retries self - 0))) "GET" e p None 0 w');
      destruct (_request_fuel E self (S (Z.to_nat (max_retries self - 0))) "GET" e p None 0 w')
        as [o w2]
    end.
    cbn [snd sent] in Hs. eexists _, rest.
    split; [destruct o; exact Hs|].
    unfold built_request. cbn [req_params String.eqb Ascii.eqb Bool.eqb].
    unfold param_dict. cbn [heap]. rewrite lookup_insert_eq. cbn [default from_option id].
    rewrite dict_truthy_insert. by rewrite insert_insert_eq.
Qed.

(** ** Mutation of the caller's parameters *)

Section CallerParams.

Context (E : Env) (self : BaseClient).

Lemma dict_truthy_non_empty (d : dict) : d <> ∅ -> dict_truthy d = true.
Proof.
  intros Hd. unfold dict_truthy. apply negb_true_iff, Nat.eqb_neq.
  by rewrite map_size_non_empty_iff.
Qed.

Lemma fresh_not_allocated (w : World) (l : nat) (d : dict) :
  heap w !! l = Some d -> fresh (dom (heap w)) <> l.
Proof.
  intros Hl Heq. apply (is_fresh (dom (heap w))). rewrite Heq.
  apply elem_of_dom. eauto.
Qed.

(** A non-empty dictionary passed as [params] is the one that gets the
    token. *)
Lemma prepared_caller (l : nat) (d : dict) (w : World) :
  heap w !! l = Some d -> d <> ∅ ->
  heap (prepared self (Some l) w) !! l
  = Some (<["access_token" := PStr (access_token self)]> d).
Proof.
  intros Hl Hd. unfold prepared, param_loc, param_dict. cbn [heap].
  rewrite Hl. cbn [default from_option id]. rewrite (dict_truthy_non_empty d Hd).
  by rewrite lookup_insert_eq.
Qed.

(** An object that already holds the token is left as it is. *)
Lemma prepared_keeps (l : nat) (d : dict) (params : option nat) (w : World) :
  heap w !! l = Some d -> d !! "access_token" = Some (PStr (access_token self)) ->
  heap (prepared self params w) !! l = Some d.
Proof.
  intros Hl Ht. unfold prepared. cbn [heap].
  destruct (decide (param_loc params w = l)) as [Heq|Hne]; [|by rewrite lookup_insert_ne].
  rewrite Heq, lookup_insert_eq. f_equal.
  unfold param_loc, param_dict in *.
  destruct params as [p|]; [|by apply fresh_not_allocated in Hl].
  destruct (dict_truthy (default ∅ (heap w !! p))); [|by apply fresh_not_allocated in Hl].
  subst p. rewrite Hl. cbn [default from_option id]. by apply insert_id.
Qed.

Lemma request_keeps (l : nat) (d : dict) (method endpoint : string) (params data : option nat)
    (retry_count : Z) :
  d !! "access_token" = Some (PStr (access_token self)) ->
  stable (fun w => heap w !! l = Some d) (_request E self method endpoint params data retry_count).
Proof.
  intros Ht w Hl. unfold _request, request_depth.
  rewrite request_fuel_heap. by apply prepared_keeps.
Qed.

Lemma fetch_page_keeps (l : nat) (d : dict) (v : Locals) :
  d !! "access_token" = Some (PStr (access_token self)) ->
  stable (fun w => heap w !! l = Some d) (fetch_page E self v).
Proof.
  intros Ht. unfold fetch_page.
  destruct (truthy (l_next_url v)).
  - destruct (l_next_url v); auto with stable.
    intros w Hl.
    unfold bind at 1, alloc at 1. cbn [fst snd].
    unfold bind at 1, store at 1. cbn [heap sent slept].
    match goal with |- context [bind ?m ?k ?w'] =>
      apply (stable_bind (fun w => heap w !! l = Some d) m k)
    end.
    + by apply request_keeps.
    + auto with stable.
    + cbn [heap]. rewrite insert_insert_eq, lookup_insert_ne; [done|].
      by eapply fresh_not_allocated.
  - apply stable_bind; [by apply request_keeps | auto with stable].
Qed.

Lemma while_true_keeps (l : nat) (d : dict) (fuel : nat) (v : Locals) :
  d !! "access_token" = Some (PStr (access_token self)) ->
  stable (fun w => heap w !! l = Some d) (while_true E self fuel v).
Proof.
  intros Ht. revert v.
  induction fuel as [|fuel IH]; intros v; cbn [while_true]; [auto with stable|].
  apply stable_bind; [by apply fetch_page_keeps|]. intros fetched.
  apply stable_bind; [auto with stable|]. intros response.
  apply stable_bind; [auto with stable|]. intros items.
  unfold for_items. destruct items; [|auto with stable].
  destruct (negb (has_next response)); auto with stable.
Qed.

End CallerParams.

(** C10 (as amended).  A non-empty dictionary that the caller passes as
    [params] is mutated in place: after [_request], however it ends, the
    caller's dictionary is the old one with ["access_token"] set to the
    client's token; after the first step of [_paginate] it is the old one
    with the default ["limit"] of 500 where that key was absent, and the
    token.  (An empty dictionary is falsy: [params or {}] then works on a
    new object, see [empty_params_not_mutated].) *)
Theorem caller_params_mutated (E : Env) (self : BaseClient) (l : nat) (d : dict) (w : World)
    (Hl : heap w !! l = Some d) (Hd : d <> ∅) :
  (forall (method endpoint : string) (data : option nat) (retry_count : Z),
     heap (snd (_request E self method endpoint (Some l) data retry_count w)) !! l
     = Some (<["access_token" := PStr (access_token self)]> d))
  /\ (forall (fuel : nat) (endpoint : string) (item_factory : option (pyval -> outcome pyval))
        (limit : option Z),
        heap (snd (gen_next E self (S fuel) (GenCreated endpoint (Some l) item_factory limit) w)) !! l
        = Some (<["access_token" := PStr (access_token self)]> (with_default_limit d))).
Proof.
  split.
  - intros method endpoint data retry_count. unfold _request, request_depth.
    rewrite request_fuel_heap. by apply prepared_caller.
  - intros fuel endpoint item_factory limit. cbn [gen_next].
    unfold bind at 1, or_new at 1, bind at 1, deref at 1.
    rewrite Hl. cbn [default from_option id]. rewrite (dict_truthy_non_empty d Hd).
    unfold ret at 1. unfold bind at 1, deref at 1. rewrite Hl. cbn [default from_option id].
    set (w1 := {| heap := <[l := with_default_limit d]> (heap w); sent := sent w; slept := slept w |}).
    assert (Hpro : forall k : unit -> M (option pyval * Generator),
              bind (if bool_decide (is_Some (d !! "limit")) then ret tt
                    else store l "limit" (PInt DEFAULT_LIMIT)) k w
              = k tt w1 \/
              bind (if bool_decide (is_Some (d !! "limit")) then ret tt
                    else store l "limit" (PInt DEFAULT_LIMIT)) k w
              = k tt w /\ with_default_limit d = d).
    { intros k. unfold with_default_limit in *. destruct (d !! "limit") as [x|] eqn:Hlim.
      - right. rewrite bool_decide_eq_true_2 by eauto. done.
      - left. rewrite bool_decide_eq_false_2 by (intros [? ?]; done).
        unfold bind, store. rewrite Hl. reflexivity. }
    assert (Hw1 : forall w', heap w' !! l = Some (with_default_limit d) ->
              heap (snd (while_true E self (S fuel)
                           {| l_endpoint := endpoint; l_params := l; l_item_factory := item_factory;
                              l_limit := limit; l_count := 0; l_next_url := PNone |} w')) !! l
              = Some (<["access_token" := PStr (access_token self)]> (with_default_limit d))).
    { intros w' Hl'. cbn [while_true]. unfold fetch_page. cbn [truthy l_next_url l_endpoint l_params].
      set (dl := <["access_token" := PStr (access_token self)]> (with_default_limit d)).
      assert (Hne : with_default_limit d <> ∅).
      { unfold with_default_limit. destruct (d !! "limit"); [done|]. apply insert_non_empty. }
      assert (Hdl : dl !! "access_token" = Some (PStr (access_token self)))
        by (unfold dl; by rewrite lookup_insert_eq).
      unfold bind at 1, bind at 1.
      pose proof (request_fuel_heap E self (Z.to_nat (max_retries self - 0)) "GET" endpoint
                    (Some l) None 0 w') as Hh.
      change (_get E self endpoint (Some l) w')
        with (_request_fuel E self (S (Z.to_nat (max_retries self - 0))) "GET" endpoint (Some l) None 0 w').
      destruct (_request_fuel E self (S (Z.to_nat (max_retries self - 0))) "GET" endpoint (Some l) None 0 w')
        as [o w2].
      cbn [snd] in Hh.
      assert (Hl2 : heap w2 !! l = Some dl).
      { rewrite Hh. by apply prepared_caller. }
      destruct o as [result|e|]; [|exact Hl2|exact Hl2].
      unfold ret at 1.
      match goal with |- context [bind ?m ?k w2] =>
        apply (stable_bind (fun w => heap w !! l = Some dl) m k)
      end; [auto with stable | | exact Hl2].
      intros response. apply stable_bind; [auto with stable|]. intros items.
      unfold for_items. destruct items; [|auto with stable].
      destruct (negb (has_next response)); auto with stable.
      by apply while_true_keeps. }
    destruct (Hpro (fun _ => while_true E self (S fuel)
                           {| l_endpoint := endpoint; l_params := l; l_item_factory := item_factory;
                              l_limit := limit; l_count := 0; l_next_url := PNone |}))
      as [->|[-> Hsame]].
    + apply Hw1. unfold w1. cbn [heap]. by rewrite lookup_insert_eq.
    + apply Hw1. by rewrite Hsame.
Qed.


(** A caller's [{"text": "example"}] passed to [_request] and to
    [_paginate]. *)
Lemma caller_params_mutated_witness :
  heap (world_with {["text" := PStr "example"]}) !! 0 = Some {["text" := PStr "example"]}
  /\ ({["text" := PStr "example"]} : dict) <> ∅
  /\ (forall (method endpoint : string) (data : option nat) (retry_count : Z),
        heap (snd (_request empty_page_env (sample_client false 3) method endpoint (Some 0) data
                            retry_count (world_with {["text" := PStr "example"]}))) !! 0
        = Some (<["access_token" := PStr (access_token (sample_client false 3))]>
                  {["text" := PStr "example"]}))
  /\ (forall (fuel : nat) (endpoint : string) (item_factory : option (pyval -> outcome pyval))
        (limit : option Z),
        heap (snd (gen_next empty_page_env (sample_client false 3) (S fuel)
                            (GenCreated endpoint (Some 0) item_factory limit)
                            (world_with {["text" := PStr "example"]}))) !! 0
        = Some (<["access_token" := PStr (access_token (sample_client false 3))]>
                  (with_default_limit {["text" := PStr "example"]}))).
Proof.
  assert (H1 : heap (world_with {["text" := PStr "example"]}) !! 0
               = Some {["text" := PStr "example"]}) by reflexivity.
  assert (H2 : ({["text" := PStr "example"]} : dict) <> ∅) by (vm_compute; discriminate).
  split; [exact H1|]. split; [exact H2|].
  exact (caller_params_mutated empty_page_env (sample_client false 3) 0
           {["text" := PStr "example"]} (world_with {["text" := PStr "example"]}) H1 H2).
Defined.

(** C10 (as stated) fails: an empty dictionary passed as [params] is not
    mutated; neither [_request] nor [_paginate] adds a key to it. *)
Lemma empty_params_not_mutated :
  heap (world_with ∅) !! 0 = Some ∅
  /\ heap (snd (_request empty_page_env (sample_client false 3) "GET" "threat_tags" (Some 0) None 0
                         (world_with ∅))) !! 0 = Some ∅
  /\ heap (snd (gen_next empty_page_env (sample_client false 3) 1
                         (GenCreated "threat_tags" (Some 0) None None) (world_with ∅))) !! 0 = Some ∅
  /\ List.length (sent (snd (gen_next empty_page_env (sample_client false 3) 1
                         (GenCreated "threat_tags" (Some 0) None None) (world_with ∅)))) = 1.
Proof. repeat split; vm_compute; reflexivity. Qed.

(** ** Traversals that differ in their limit *)

Lemma omap_id {A} (r : outcome A * World) : omap (fun a => a) r = r.
Proof. destruct r as [[a|e|] w]; reflexivity. Qed.

Lemma bind_omap {A A' B B'} (f : A -> A') (g : B -> B') (m1 : M A') (m2 : M A)
    (k1 : A' -> M B') (k2 : A -> M B) (w : World) :
  m1 w = omap f (m2 w) ->
  (forall a w', k1 (f a) w' = omap g (k2 a w')) ->
  bind m1 k1 w = omap g (bind m2 k2 w).
Proof.
  intros Hm Hk. unfold bind. rewrite Hm.
  destruct (m2 w) as [[a|e|] w']; cbn; [apply Hk | reflexivity | reflexivity].
Qed.

Lemma bind_omap_same {A B B'} (g : B -> B') (m : M A) (k1 : A -> M B') (k2 : A -> M B)
    (w : World) :
  (forall a w', k1 a w' = omap g (k2 a w')) ->
  bind m k1 w = omap g (bind m k2 w).
Proof.
  intros Hk. apply (bind_omap (fun a => a) g); [by rewrite omap_id | exact Hk].
Qed.

Section LimitZero.

Context (E : Env) (self : BaseClient).

Lemma fetch_page_set_limit (lim : option Z) (v : Locals) (w : World) :
  fetch_page E self (set_limit lim v) w
  = omap (on_locals (set_limit lim)) (fetch_page E self v w).
Proof.
  unfold fetch_page. cbn [l_next_url set_limit l_endpoint l_params].
  destruct (truthy (l_next_url v)).
  - destruct (l_next_url v); try reflexivity.
    apply bind_omap_same. intros params w1.
    apply bind_omap_same. intros _ w2.
    apply bind_omap_same. intros result w3. reflexivity.
  - apply bind_omap_same. intros result w1. reflexivity.
Qed.

Lemma while_true_set_limit (lim : option Z) (fuel : nat) (v : Locals) (w : World) :
  while_true E self fuel (set_limit lim v) w
  = omap (on_generator (relimit lim)) (while_true E self fuel v w).
Proof.
  revert v w. induction fuel as [|fuel IH]; intros v w; [reflexivity|].
  cbn [while_true].
  apply (bind_omap (on_locals (set_limit lim)) _); [apply fetch_page_set_limit|].
  intros [result v'] w1. cbn [on_locals fst snd set_limit l_item_factory].
  apply bind_omap_same. intros response w2.
  apply bind_omap_same. intros items w3.
  unfold for_items. destruct items as [|item rest]; [|reflexivity].
  destruct (negb (has_next response)); [reflexivity|].
  apply (IH (with_next_url v' (next_url response))).
Qed.

Lemma gen_next_relimit (lim lim' : option Z) (fuel : nat) (g : Generator) (w : World) :
  limit_off lim -> limit_off lim' ->
  gen_next E self fuel (relimit lim g) w
  = omap (on_generator (relimit lim)) (gen_next E self fuel (relimit lim' g) w).
Proof.
  intros Hoff Hoff'.
  destruct g as [endpoint params item_factory limit|v response rest|]; cbn [relimit gen_next];
    [| |reflexivity].
  - apply bind_omap_same. intros params' w1.
    apply bind_omap_same. intros p w2.
    apply bind_omap_same. intros _ w3.
    apply (while_true_set_limit lim fuel
             {| l_endpoint := endpoint; l_params := params'; l_item_factory := item_factory;
                l_limit := lim'; l_count := 0; l_next_url := PNone |}).
  - cbn [with_count set_limit l_limit l_count]. rewrite Hoff, Hoff'.
    unfold for_items. destruct rest as [|item rest]; [|reflexivity].
    destruct (negb (has_next response)); [reflexivity|].
    apply (while_true_set_limit lim fuel
             (with_next_url (with_count (set_limit lim' v) (l_count v + 1)%Z) (next_url response))).
Qed.

Lemma drain_relimit (lim : option Z) (n fuel : nat) (g : Generator) (w : World) :
  limit_off lim ->
  drain E self n fuel (relimit lim g) w = drain E self n fuel (relimit None g) w.
Proof.
  intros Hoff.
  assert (Hnone : limit_off None) by (intros c; reflexivity).
  revert g w. induction n as [|n IH]; intros g w; [reflexivity|].
  cbn [drain]. unfold bind at 1 3.
  rewrite (gen_next_relimit lim None fuel g w Hoff Hnone).
  pose proof (gen_next_relimit None None fuel g w Hnone Hnone) as Hfix.
  destruct (gen_next E self fuel (relimit None g) w) as [[[item g1]|e|] w1];
    cbn [omap fst snd on_generator] in *; [|reflexivity|reflexivity].
  injection Hfix as Hg1.
  destruct item as [item|]; [|reflexivity].
  unfold bind. rewrite (IH g1 w1). rewrite <- Hg1. reflexivity.
Qed.

End LimitZero.

(** ** Traversal of scripted pages *)

Lemma omap_app_nil {A} (r : outcome (list A) * World) : omap (app []) r = r.
Proof. destruct r as [[a|e|] w]; reflexivity. Qed.

Lemma with_count_same (v : Locals) : with_count v (l_count v) = v.
Proof. destruct v; reflexivity. Qed.

Lemma with_count_twice (v : Locals) (a b : Z) : with_count (with_count v a) b = with_count v b.
Proof. reflexivity. Qed.

Lemma from_dict_page_body (items : list pyval) (next : option string) :
  from_dict (page_body items next) None = Return (page_response items next).
Proof.
  unfold from_dict, page_body, page_response. cbn [py_get obind].
  rewrite lookup_insert_eq. cbn [default from_option id obind].
  rewrite lookup_insert_ne by done. rewrite lookup_insert_eq. cbn [default from_option id py_get obind].
  destruct next as [u|].
  - rewrite lookup_singleton_eq. reflexivity.
  - rewrite lookup_empty. reflexivity.
Qed.

Lemma has_error_key_page_body (items : list pyval) (next : option string) :
  has_error_key (page_body items next) = Return false.
Proof.
  unfold has_error_key, page_body.
  rewrite !lookup_insert_ne by done. rewrite lookup_empty.
  rewrite bool_decide_eq_false_2; [reflexivity|]. by intros [? ?].
Qed.

Section Scripted.

Context (E : Env) (self : BaseClient) (script : list Response).
Hypothesis Htransport : transport E = scripted script.

(** A [GET] that the script answers with an error-free body returns that
    body after one request. *)
Lemma get_scripted (endpoint : string) (params : option nat) (body : pyval) (w : World) :
  script !! List.length (sent w) = Some (ok_response body) ->
  has_error_key body = Return false ->
  exists w',
    _get E self endpoint params w = (Return body, w')
    /\ List.length (sent w') = S (List.length (sent w)).
Proof.
  intros Hs Hb. unfold _get, _request, request_depth.
  rewrite request_fuel_step. cbv zeta.
  rewrite Htransport. unfold scripted. rewrite Hs.
  unfold _handle_response. cbn [json ok_response].
  rewrite (bind_lift_Return _ false) by exact Hb.
  eexists. split; [reflexivity|].
  cbn. rewrite length_app. cbn. lia.
Qed.

Lemma fetch_page_scripted (v : Locals) (body : pyval) (w : World) :
  script !! List.length (sent w) = Some (ok_response body) ->
  has_error_key body = Return false ->
  (l_next_url v = PNone \/ exists u, l_next_url v = PStr u) ->
  exists v' w',
    fetch_page E self v w = (Return (body, v'), w')
    /\ List.length (sent w') = S (List.length (sent w))
    /\ l_limit v' = l_limit v /\ l_count v' = l_count v
    /\ l_item_factory v' = l_item_factory v.
Proof.
  intros Hs Hb Hnext. unfold fetch_page.
  destruct (truthy (l_next_url v)) eqn:Ht.
  - destruct Hnext as [Hn|[u Hn]]; rewrite Hn in *; [discriminate|].
    unfold bind at 1, alloc at 1. cbn [fst snd].
    unfold bind at 1, store at 1. cbn [sent heap slept].
    unfold bind at 1.
    match goal with |- context [_get E self ?e ?p ?w1] =>
      destruct (get_scripted e p body w1 Hs Hb) as (w' & Hget & Hlen)
    end.
    rewrite Hget.
    eexists _, w'. split; [reflexivity|]. repeat split. exact Hlen.
  - destruct (get_scripted (l_endpoint v) (Some (l_params v)) body w Hs Hb) as (w' & Hget & Hlen).
    unfold bind. rewrite Hget.
    exists v, w'. repeat split. exact Hlen.
Qed.

End Scripted.


Section PageDrain.

Context (E : Env) (self : BaseClient).

Lemma collect_for_items_nil (n fuel : nat) (again : Locals -> M (option pyval * Generator))
    (v : Locals) (response : PaginatedResponse) (w : World) :
  collect E self n fuel (for_items again v response []) w
  = if has_next response
    then collect E self n fuel (again (with_next_url v (next_url response))) w
    else (Return [], w).
Proof. unfold for_items. destruct (has_next response); reflexivity. Qed.

(** Draining a generator suspended in a page, with limit [lim >= 1]: the
    items left in the page are yielded up to the limit; if the limit is
    not reached in this page, the traversal goes on from the end of the
    page. *)
Lemma suspended_drain (fuel : nat) (lim : Z) (response : PaginatedResponse) (rest : list pyval) :
  (1 <= lim)%Z ->
  forall (v : Locals) (w : World) (n : nat),
    l_limit v = Some lim ->
    List.length rest < n ->
    drain E self n fuel (GenSuspended v response rest) w
    = if (lim - (l_count v + 1) <=? Z.of_nat (List.length rest))%Z
      then (Return (firstn (Z.to_nat (lim - (l_count v + 1))) rest), w)
      else omap (app rest)
             (collect E self (n - 1 - List.length rest) fuel
                (for_items (while_true E self fuel)
                   (with_count v (l_count v + 1 + Z.of_nat (List.length rest))%Z) response [])
                w).
Proof.
  intros Hlim. induction rest as [|item rest IH]; intros v w n Hv Hn;
    (destruct n as [|n]; [lia|]); cbn [drain gen_next].
  - cbn [with_count l_limit l_count]. rewrite Hv. unfold limit_reached.
    replace (negb (lim =? 0)%Z) with true by (symmetry; apply negb_true_iff, Z.eqb_neq; lia).
    cbn [andb List.length Z.of_nat].
    destruct (Z.leb_spec lim (l_count v + 1)) as [Hle|Hgt].
    + rewrite (proj2 (Z.leb_le _ _)) by lia.
      replace (Z.to_nat (lim - (l_count v + 1))) with 0 by lia. reflexivity.
    + rewrite (proj2 (Z.leb_gt _ _)) by lia.
      rewrite Z.add_0_r, Nat.sub_0_r. cbn [Nat.sub]. rewrite Nat.sub_0_r.
      rewrite omap_app_nil. reflexivity.
  - cbn [with_count l_limit l_count]. rewrite Hv. unfold limit_reached.
    replace (negb (lim =? 0)%Z) with true by (symmetry; apply negb_true_iff, Z.eqb_neq; lia).
    cbn [andb].
    destruct (Z.leb_spec lim (l_count v + 1)) as [Hle|Hgt].
    + rewrite (proj2 (Z.leb_le _ _)) by lia.
      replace (Z.to_nat (lim - (l_count v + 1))) with 0 by lia. reflexivity.
    + unfold for_items at 1. unfold bind at 1, ret at 1. cbn [fst snd].
      unfold bind at 1.
      cbn [List.length] in Hn.
      rewrite (IH _ w n); [| exact Hv | lia].
      cbn [with_count l_count].
      replace (lim - (l_count v + 1 + 1) <=? Z.of_nat (List.length rest))%Z
        with (lim - (l_count v + 1) <=? Z.of_nat (List.length (item :: rest)))%Z.
      2:{ cbn [List.length]. destruct (Z.leb_spec (lim - (l_count v + 1)) (Z.of_nat (S (List.length rest))));
          symmetry; [apply Z.leb_le | apply Z.leb_gt]; lia. }
      destruct (lim - (l_count v + 1) <=? Z.of_nat (List.length (item :: rest)))%Z.
      * unfold ret.
        replace (Z.to_nat (lim - (l_count v + 1))) with (S (Z.to_nat (lim - (l_count v + 1 + 1))))
          by lia.
        reflexivity.
      * replace (l_count v + 1 + 1 + Z.of_nat (List.length rest))%Z
          with (l_count v + 1 + Z.of_nat (List.length (item :: rest)))%Z
          by (cbn [List.length]; lia).
        replace (n - 1 - List.length rest) with (S n - 1 - List.length (item :: rest))
          by (cbn [List.length]; lia).
        rewrite with_count_twice.
        match goal with |- context [collect E self ?a ?b ?c w] =>
          destruct (collect E self a b c w) as [[items|e|] w']
        end; reflexivity.
Qed.

End PageDrain.


Section PageStep.

Context (E : Env) (self : BaseClient).

Lemma collect_bind {A} (n fuel : nat) (m : M A) (k : A -> M (option pyval * Generator))
    (w : World) :
  collect E self n fuel (bind m k) w
  = match m w with
    | (Return a, w') => collect E self n fuel (k a) w'
    | (Raise e, w') => (Raise e, w')
    | (OutOfFuel, w') => (OutOfFuel, w')
    end.
Proof. unfold collect, bind. destruct (m w) as [[a|e|] w']; reflexivity. Qed.

(** A page at the head of the [for] loop, with at least one item still
    asked for: the page is yielded up to the limit; past its end the
    traversal stops on the last page and fetches the next one otherwise. *)
Lemma page_step (fuel fuel' n : nat) (lim : Z) (items : list pyval) (next : option string)
    (v : Locals) (w : World) :
  (1 <= lim)%Z ->
  l_limit v = Some lim ->
  (1 <= lim - l_count v)%Z ->
  List.length items <= n ->
  collect E self n fuel (for_items (while_true E self fuel') v (page_response items next) items) w
  = if (lim - l_count v <=? Z.of_nat (List.length items))%Z
    then (Return (firstn (Z.to_nat (lim - l_count v)) items), w)
    else match next with
         | None => (Return items, w)
         | Some u =>
             omap (app items)
               (collect E self (n - List.length items) fuel
                  (while_true E self (match items with [] => fuel' | _ => fuel end)
                     (with_next_url (with_count v (l_count v + Z.of_nat (List.length items))%Z)
                        (PStr u)))
                  w)
         end.
Proof.
  intros Hlim Hv Hd Hn. destruct items as [|item rest].
  - rewrite collect_for_items_nil. cbn [List.length Z.of_nat].
    rewrite (proj2 (Z.leb_gt _ _)) by lia.
    destruct next as [u|]; cbn [page_response has_next next_url]; [|reflexivity].
    rewrite Z.add_0_r, with_count_same, Nat.sub_0_r, omap_app_nil. reflexivity.
  - cbn [for_items]. unfold collect at 1, bind at 1, ret at 1. cbn [fst snd].
    cbn [List.length] in Hn. unfold bind at 1.
    rewrite (suspended_drain E self fuel lim (page_response (item :: rest) next) rest)
      by (first [exact Hv | lia]).
    replace (lim - (l_count v + 1) <=? Z.of_nat (List.length rest))%Z
      with (lim - l_count v <=? Z.of_nat (List.length (item :: rest)))%Z.
    2:{ cbn [List.length].
        destruct (Z.leb_spec (lim - l_count v) (Z.of_nat (S (List.length rest))));
          symmetry; [apply Z.leb_le | apply Z.leb_gt]; lia. }
    destruct (lim - l_count v <=? Z.of_nat (List.length (item :: rest)))%Z.
    + unfold ret.
      replace (Z.to_nat (lim - l_count v)) with (S (Z.to_nat (lim - (l_count v + 1)))) by lia.
      reflexivity.
    + rewrite collect_for_items_nil.
      destruct next as [u|]; cbn [page_response has_next next_url].
      * replace (l_count v + 1 + Z.of_nat (List.length rest))%Z
          with (l_count v + Z.of_nat (List.length (item :: rest)))%Z
          by (cbn [List.length]; lia).
        replace (n - 1 - List.length rest) with (n - List.length (item :: rest))
          by (cbn [List.length]; lia).
        match goal with |- context [collect E self ?a ?b ?c w] =>
          destruct (collect E self a b c w) as [[items|e|] w']
        end; reflexivity.
      * cbn. by rewrite app_nil_r.
Qed.

(** The head of a traversal: the parameters are settled and the [while]
    loop is entered; nothing has been sent yet. *)
Lemma gen_next_created (fuel : nat) (endpoint : string) (params : option nat)
    (item_factory : option (pyval -> outcome pyval)) (limit : option Z) (w : World) :
  exists p w',
    sent w' = sent w
    /\ gen_next E self fuel (GenCreated endpoint params item_factory limit) w
       = while_true E self fuel
           {| l_endpoint := endpoint; l_params := p; l_item_factory := item_factory;
              l_limit := limit; l_count := 0; l_next_url := PNone |} w'.
Proof.
  cbn [gen_next].
  assert (Hnew : exists p w1, sent w1 = sent w /\ or_new params w = (Return p, w1)).
  { destruct params as [l|]; cbn [or_new];
      [unfold bind, deref; destruct (dict_truthy _)|];
      eexists _, _; (split; [|reflexivity]); reflexivity. }
  destruct Hnew as (p & w1 & Hs1 & Hnew).
  unfold bind at 1. rewrite Hnew.
  unfold bind at 1, deref at 1.
  destruct (bool_decide (is_Some (default ∅ (heap w1 !! p) !! "limit"))).
  - exists p, w1. split; [exact Hs1 | reflexivity].
  - eexists p, _. split; [|reflexivity]. exact Hs1.
Qed.

End PageStep.


Section ScriptedTraversal.

Context (E : Env) (self : BaseClient) (script : list Response).
Hypothesis Htransport : transport E = scripted script.

Lemma script_head (i : nat) (r : Response) (rest : list Response) :
  drop i script = r :: rest -> script !! i = Some r /\ drop (S i) script = rest.
Proof.
  intros Hd. split.
  - rewrite <- (Nat.add_0_r i), <- lookup_drop, Hd. reflexivity.
  - replace (S i) with (i + 1) by lia. rewrite <- drop_drop, Hd. reflexivity.
Qed.

(** From the head of the [while] loop, with [lim - count >= 1] items still
    asked for and the script at the pages [pages], [last]: the traversal
    yields the first [lim - count] of their items and fetches as many
    pages as hold them. *)
Lemma while_true_scripted (lim : Z) (last : list pyval) (pages : list (list pyval * string)) :
  (1 <= lim)%Z ->
  forall (v : Locals) (w : World) (n fuel fuel' : nat),
    drop (List.length (sent w)) script = page_script pages last ->
    l_limit v = Some lim ->
    l_item_factory v = None ->
    (l_next_url v = PNone \/ exists u, l_next_url v = PStr u) ->
    (1 <= lim - l_count v)%Z ->
    List.length pages < fuel ->
    List.length pages < fuel' ->
    List.length (all_items pages last) <= n ->
    exists w',
      collect E self n fuel (while_true E self fuel' v) w
      = (Return (firstn (Z.to_nat (lim - l_count v)) (all_items pages last)), w')
      /\ List.length (sent w')
         = List.length (sent w) + pages_fetched (Z.to_nat (lim - l_count v)) (item_lists pages last).
Proof.
  intros Hlim.
  induction pages as [|[items u] pages IH];
    intros v w n fuel fuel' Hdrop Hv Hf Hnext Hd Hfuel Hfuel' Hn;
    (destruct fuel' as [|fuel']; [lia|]);
    cbn [while_true]; rewrite collect_bind;
    apply script_head in Hdrop as [Hhead Htail]; cbn [fst snd] in Hhead.
  - destruct (fetch_page_scripted E self script Htransport v _ w Hhead
                (has_error_key_page_body last None) Hnext)
      as (v1 & w1 & -> & Hlen & Hv1 & Hc1 & Hf1).
    rewrite collect_bind. cbn [fst snd]. rewrite Hf1, Hf, from_dict_page_body.
    unfold lift at 1. rewrite collect_bind. cbn [page_response data py_iter]. unfold lift at 1.
    unfold all_items, item_lists in *. cbn [fmap list_fmap app List.concat] in *.
    rewrite app_nil_r in *.
    change {| data := PList last; next_url := PNone; has_next := false |}
      with (page_response last None).
    rewrite (page_step E self fuel fuel' n lim last None v1 w1)
      by (first [exact Hlim | congruence | lia]).
    rewrite Hc1. exists w1. cbn [pages_fetched].
    destruct (Z.leb_spec (lim - l_count v) (Z.of_nat (List.length last))) as [Hle|Hgt].
    + split; [reflexivity|]. rewrite Hlen. destruct (Nat.leb _ _); lia.
    + split; [|rewrite Hlen; destruct (Nat.leb _ _); lia].
      rewrite firstn_all2 by lia. reflexivity.
  - destruct (fetch_page_scripted E self script Htransport v _ w Hhead
                (has_error_key_page_body items (Some u)) Hnext)
      as (v1 & w1 & -> & Hlen & Hv1 & Hc1 & Hf1).
    rewrite collect_bind. cbn [fst snd]. rewrite Hf1, Hf, from_dict_page_body.
    unfold lift at 1. rewrite collect_bind. cbn [page_response data py_iter]. unfold lift at 1.
    change {| data := PList items; next_url := PStr u; has_next := true |}
      with (page_response items (Some u)).
    assert (Hall : all_items ((items, u) :: pages) last = items ++ all_items pages last)
      by reflexivity.
    rewrite Hall in *. rewrite length_app in Hn.
    rewrite (page_step E self fuel fuel' n lim items (Some u) v1 w1)
      by (first [exact Hlim | congruence | lia]).
    rewrite Hc1.
    change (item_lists ((items, u) :: pages) last) with (items :: item_lists pages last).
    cbn [pages_fetched].
    destruct (Z.leb_spec (lim - l_count v) (Z.of_nat (List.length items))) as [Hle|Hgt].
    + exists w1. split.
      * rewrite firstn_app. replace (Z.to_nat (lim - l_count v) - List.length items) with 0 by lia.
        cbn [firstn]. by rewrite app_nil_r.
      * rewrite Hlen. rewrite (proj2 (Nat.leb_le _ _)) by lia. lia.
    + set (v2 := with_next_url (with_count v1 (l_count v + Z.of_nat (List.length items))%Z) (PStr u)).
      set (f := match items with [] => fuel' | _ => fuel end).
      assert (Hfl : List.length pages < f).
      { unfold f. cbn [List.length] in Hfuel, Hfuel'. destruct items; lia. }
      cbn [List.length] in Hfuel.
      destruct (IH v2 w1 (n - List.length items) fuel f) as (w' & Hrun & Hsent);
        [by rewrite Hlen | cbn; congruence | cbn; congruence | right; by eexists
        | cbn [v2 with_next_url with_count l_count]; lia | lia | exact Hfl | lia |].
      exists w'. fold f v2. rewrite Hrun. split.
      * unfold omap. cbn [fst snd]. f_equal. f_equal.
        rewrite firstn_app. rewrite (firstn_all2 items) by lia.
        f_equal. f_equal. cbn [v2 with_next_url with_count l_count]. lia.
      * rewrite Hsent, Hlen.
        rewrite (proj2 (Nat.leb_gt _ _)) by lia.
        replace (Z.to_nat (lim - l_count v2))
          with (Z.to_nat (lim - l_count v) - List.length items)
          by (cbn [v2 with_next_url with_count l_count]; lia).
        lia.
Qed.

End ScriptedTraversal.


Lemma pages_fetched_needed (pages : list (list pyval)) (demand k : nat) :
  1 <= demand ->
  k < pages_fetched demand pages ->
  List.length (List.concat (firstn k pages)) < demand.
Proof.
  revert demand k. induction pages as [|p pages IH]; intros demand k Hd Hk; cbn in *; [lia|].
  destruct k as [|k]; cbn; [lia|].
  rewrite length_app.
  destruct (Nat.leb_spec demand (List.length p)); [lia|].
  specialize (IH (demand - List.length p) k). lia.
Qed.



(** With a limit of one the second page is never fetched. *)
Lemma two_pages_limit_one :
  fst (drain two_page_env (sample_client false 3) 3 2
             (GenCreated "threat_descriptors" None None (Some 1%Z)) empty_world)
  = Return [PDict {["id" := PStr "1"]}]
  /\ List.length (sent (snd (drain two_page_env (sample_client false 3) 3 2
                                   (GenCreated "threat_descriptors" None None (Some 1%Z))
                                   empty_world))) = 1.
Proof. split; vm_compute; reflexivity. Qed.

(** Without limit both pages are fetched, and the items come in page
    order; the second request goes to the continuation URL with its own
    parameter and the token. *)
Lemma two_pages_no_limit :
  fst (drain two_page_env (sample_client false 3) 3 2
             (GenCreated "threat_descriptors" None None None) empty_world)
  = Return [PDict {["id" := PStr "1"]}; PDict {["id" := PStr "2"]}]
  /\ (fun r => (req_url r, req_params r))
       <$> sent (snd (drain two_page_env (sample_client false 3) 3 2
                            (GenCreated "threat_descriptors" None None None) empty_world))
     = [("https://graph.facebook.com/v19.0/threat_descriptors",
         Some (<["limit" := PInt 500]> {["access_token" := PStr "test_token"]}));
        ("https://graph.facebook.com/v19.0/threat_descriptors",
         Some (<["after" := PStr "cursor1"]> {["access_token" := PStr "test_token"]}))].
Proof. split; vm_compute; reflexivity. Qed.

(** A limit of zero yields everything, as no limit does. *)
Lemma two_pages_limit_zero :
  fst (drain two_page_env (sample_client false 3) 3 2
             (GenCreated "threat_descriptors" None None (Some 0%Z)) empty_world)
  = Return [PDict {["id" := PStr "1"]}; PDict {["id" := PStr "2"]}].
Proof. vm_compute. reflexivity. Qed.

(** ** Upload *)

Section Upload.

Context (E : Env) (self : BaseClient).

(** [_upload_file] step by step: the token is set in the form data, the
    file part is chosen, the multipart [POST] is sent, and the answer goes
    to [_handle_response], which may call [_request]. *)
Lemma upload_file_step (endpoint : string) (file_path file_content file_name : option string)
    (data : option nat) (w : World) :
  _upload_file E self endpoint file_path file_content file_name data w =
  match upload_part E file_path file_content file_name with
  | None => (Raise (PyExn "OSError"), prepared self data w)
  | Some file =>
      let r := upload_request E self endpoint data file w in
      let w' := with_sent (prepared self data w) r in
      match transport E (sent w) r with
      | RequestException _ => (Raise (PyExn "RequestException"), w')
      | Reply response =>
          _handle_response E self (_request E self) response "POST" endpoint None
            (Some (param_loc data w)) 0 w'
      end
  end.
Proof.
  unfold _upload_file. rewrite or_new_store.
  assert (Hpost : forall file (k : Response -> M pyval),
            bind (bind (deref (param_loc data w))
                       (fun d => session_post E self (_build_url E self endpoint) d file)) k
                 (prepared self data w)
            = match transport E (sent w) (upload_request E self endpoint data file w) with
              | RequestException _ =>
                  (Raise (PyExn "RequestException"),
                   with_sent (prepared self data w) (upload_request E self endpoint data file w))
              | Reply response =>
                  k response (with_sent (prepared self data w)
                                (upload_request E self endpoint data file w))
              end).
  { intros file k.
    unfold session_post, bind, deref, send, upload_request, with_sent, prepared.
    cbn [sent heap slept]. rewrite lookup_insert_eq. cbn [default from_option id].
    destruct (transport E (sent w) _); reflexivity. }
  unfold upload_part.
  destruct file_path as [[|a s]|]; cbn [String.length Nat.eqb negb]; try apply Hpost.
  destruct (open_rb E (String a s)); [apply Hpost | reflexivity].
Qed.

Lemma upload_file_sent (endpoint : string) (file_path file_content file_name : option string)
    (data : option nat) (file : option string * option string) (w : World) :
  upload_part E file_path file_content file_name = Some file ->
  exists rest,
    sent (snd (_upload_file E self endpoint file_path file_content file_name data w))
    = sent w ++ upload_request E self endpoint data file w :: rest.
Proof.
  intros Hfile. rewrite upload_file_step, Hfile. cbv zeta.
  set (r := upload_request E self endpoint data file w).
  set (w1 := with_sent (prepared self data w) r).
  assert (Hone : forall o : outcome pyval, exists rest, sent (snd (o, w1)) = sent w ++ r :: rest).
  { intros o. exists []. reflexivity. }
  destruct (transport E (sent w) r) as [e|response]; [apply Hone|].
  destruct (handle_response_cases E self (_request E self) response "POST" endpoint None
              (Some (param_loc data w)) 0 w1)
    as [(o & _ & ->)|(_ & _ & ->)]; [apply Hone|].
  unfold bind, time_sleep.
  destruct (_get_retry_after E response <? 0)%Z; [apply Hone|].
  match goal with |- context [_request E self ?m ?e ?p ?d ?rc ?w'] =>
    destruct (request_fuel_sent E self (request_depth self rc) m e p d rc w') as (new & Hs & _)
  end.
  exists new. unfold _request. rewrite Hs. cbn [sent w1 with_sent prepared].
  by rewrite <- app_assoc.
Qed.

(** Against a server that only answers with rate limits, an upload goes
    through the same retries as any other call. *)
Lemma upload_file_rate_limited (endpoint : string) (file_path file_content file_name : option string)
    (data : option nat) (file : option string * option string) (w : World) :
  always_rate_limited E -> delays_non_negative E self ->
  upload_part E file_path file_content file_name = Some file ->
  exists e w',
    _upload_file E self endpoint file_path file_content file_name data w = (Raise (ApiExn e), w')
    /\ cls e = RateLimitError
    /\ List.length (sent w') = List.length (sent w) + attempts self 0
    /\ List.length (slept w') = List.length (slept w) + (attempts self 0 - 1).
Proof.
  intros Hlimited Hdelays Hfile. rewrite upload_file_step, Hfile. cbv zeta.
  set (r := upload_request E self endpoint data file w).
  set (w1 := with_sent (prepared self data w) r).
  destruct (Hlimited (sent w) r) as (response & Ht & Henv). rewrite Ht.
  destruct (handle_response_rate_limited E self (_request E self) response "POST" endpoint None
              (Some (param_loc data w)) 0 w1 Henv) as (msg & c & ->).
  unfold attempts. rewrite Z.sub_0_r.
  destruct (retry_on_rate_limit self) eqn:Hon; cbn [andb].
  2:{ eexists _, w1. split; [reflexivity|]. repeat split; cbn; rewrite ?length_app; cbn; lia. }
  destruct (Z.ltb_spec 0 (max_retries self)) as [Hpos|Hle].
  2:{ eexists _, w1. split; [reflexivity|]. repeat split; cbn; rewrite ?length_app; cbn; lia. }
  unfold bind, time_sleep.
  rewrite (proj2 (Z.ltb_ge _ _) (Hdelays _ _ _ Ht)).
  match goal with |- context [_request E self ?m ?e ?p ?d ?rc ?w'] => set (w2 := w') end.
  destruct (request_fuel_rate_limited E self Hlimited Hdelays
              (Z.to_nat (max_retries self - 1)) (request_depth self (0 + 1)) "POST" endpoint None
              (Some (param_loc data w)) (0 + 1) w2)
    as (e & h & r' & response' & w' & Hrun & Hcls & _ & _ & _ & Hlen & Hsl);
    [by rewrite Hon | unfold request_depth; lia |].
  exists e, w'. unfold _request. rewrite Hrun. repeat split; [exact Hcls | |].
  - rewrite Hlen. cbn. rewrite length_app. cbn. lia.
  - rewrite Hsl. cbn. rewrite length_app. cbn. lia.
Qed.

End Upload.

(** C8 (as amended).  [_upload_file] does not validate its file source.
    Whatever path and buffer it is given, it sets the token in the form
    data and sends a multipart [POST] as its first request, with the file
    part [upload_part]: with neither path nor buffer that part is
    [(file_name, None)]; with both, the path is used and the buffer
    ignored.  The one failure before the request is [OSError], when a
    non-empty path cannot be opened. *)
Theorem upload_sends_any_source (E : Env) (self : BaseClient) (endpoint : string)
    (file_path file_content file_name : option string) (data : option nat) (w : World) :
  match upload_part E file_path file_content file_name with
  | Some file =>
      exists rest,
        sent (snd (_upload_file E self endpoint file_path file_content file_name data w))
        = sent w ++ upload_request E self endpoint data file w :: rest
  | None =>
      _upload_file E self endpoint file_path file_content file_name data w
      = (Raise (PyExn "OSError"), prepared self data w)
  end
  /\ upload_part E None None file_name = Some (file_name, None)
  /\ upload_part E (Some "") None file_name = Some (file_name, None)
  /\ upload_part E file_path file_content file_name
     = match file_path with
       | Some (String a s) => upload_part E file_path None file_name
       | _ => Some (file_name, file_content)
       end.
Proof.
  split; [|split; [reflexivity | split; [reflexivity | by destruct file_path as [[|a s]|]]]].
  destruct (upload_part E file_path file_content file_name) as [file|] eqn:Hfile.
  - by apply upload_file_sent.
  - rewrite upload_file_step, Hfile. reflexivity.
Qed.

(** C8 (as stated) fails: with neither path nor buffer the upload is sent
    and its answer returned; with both, the upload is sent with the file
    at the path.  Neither call fails. *)
Lemma upload_accepts_invalid_source :
  (exists w' r,
     _upload_file (sample_env (constantly (ok_response (PDict {["id" := PStr "1"]}))))
                  (sample_client false 3) "malware_analyses" None None None None empty_world
     = (Return (PDict {["id" := PStr "1"]}), w')
     /\ sent w' = [r]
     /\ req_files r = Some (None, None))
  /\ (exists w' r,
        _upload_file (file_env (constantly (ok_response (PDict {["id" := PStr "1"]}))))
                     (sample_client false 3) "malware_analyses" (Some "/tmp/sample.bin")
                     (Some "in memory") None None empty_world
        = (Return (PDict {["id" := PStr "1"]}), w')
        /\ sent w' = [r]
        /\ req_files r = Some (Some "sample.bin", Some "on disk")).
Proof.
  split; eexists _, _; (split; [vm_compute; reflexivity|]); split; reflexivity.
Qed.




(** * Further properties of the request executor *)

Section RequestPaths.

Context (E : Env) (self : BaseClient).

Lemma handle_response_error_free
    (retry : string -> string -> option nat -> option nat -> Z -> M pyval)
    (response : Response) (body : dict) (method endpoint : string) (params data : option nat)
    (retry_count : Z) (w : World) :
  error_free response body ->
  _handle_response E self retry response method endpoint params data retry_count w
  = (Return (PDict body), w).
Proof.
  intros [Hj Hb]. unfold _handle_response. rewrite Hj.
  rewrite (bind_lift_Return _ false); [reflexivity|].
  cbn. rewrite Hb. rewrite bool_decide_eq_false_2; [reflexivity|]. by intros [? ?].
Qed.

(** All the requests of one call are the same request. *)
Lemma built_request_again (method endpoint : string) (params data : option nat) (w w' : World) :
  heap w' = heap (prepared self params w) ->
  built_request E self method endpoint (Some (param_loc params w)) data w'
  = built_request E self method endpoint params data w.
Proof.
  intros Hh.
  assert (Hl : heap w' !! param_loc params w
               = Some (<["access_token" := PStr (access_token self)]> (param_dict params w))).
  { rewrite Hh. unfold prepared. cbn [heap]. by rewrite lookup_insert_eq. }
  assert (Hd : param_dict (Some (param_loc params w)) w'
               = <["access_token" := PStr (access_token self)]> (param_dict params w)).
  { unfold param_dict at 1. rewrite Hl. cbn [default from_option id].
    by rewrite dict_truthy_insert. }
  unfold built_request. rewrite Hd, insert_insert_eq.
  rewrite (prepared_again self params w w' Hh), Hh. reflexivity.
Qed.

Lemma request_fuel_same_requests (fuel : nat) (method endpoint : string)
    (params data : option nat) (retry_count : Z) (w : World) :
  exists new,
    sent (snd (_request_fuel E self fuel method endpoint params data retry_count w)) = sent w ++ new
    /\ Forall (fun r => r = built_request E self method endpoint params data w) new.
Proof.
  revert params retry_count w.
  induction fuel as [|fuel IH]; intros params retry_count w.
  { exists []. cbn. rewrite app_nil_r. split; [reflexivity | constructor]. }
  rewrite request_fuel_step. cbv zeta.
  set (r := built_request E self method endpoint params data w).
  set (w1 := with_sent (prepared self params w) r).
  assert (Hone : forall o : outcome pyval,
            exists new, sent (snd (o, w1)) = sent w ++ new /\ Forall (fun r' => r' = r) new).
  { intros o. exists [r]. split; [reflexivity | by constructor]. }
  destruct (transport E (sent w) r) as [e|response]; [apply Hone|].
  destruct (handle_response_cases E self (_request_fuel E self fuel) response method endpoint
              (Some (param_loc params w)) data retry_count w1)
    as [(o & _ & ->)|(_ & _ & ->)]; [apply Hone|].
  unfold bind, time_sleep.
  destruct (_get_retry_after E response <? 0)%Z; [apply Hone|].
  match goal with |- context [_request_fuel E self fuel _ _ _ _ _ ?w'] => set (w2 := w') end.
  destruct (IH (Some (param_loc params w)) (retry_count + 1)%Z w2) as (new & Hs & Hall).
  rewrite (built_request_again method endpoint params data w w2) in Hall by reflexivity.
  exists (r :: new). rewrite Hs. cbn [sent w2 w1 with_sent prepared].
  rewrite <- app_assoc. split; [reflexivity | by constructor].
Qed.

End RequestPaths.

(** X1.  An answer whose body is a JSON object without ["error"] key is a
    success whatever its HTTP status: [_request] returns the body as it
    is, after this one request and without sleeping. *)
Theorem request_returns_error_free_body (E : Env) (self : BaseClient)
    (method endpoint : string) (params data : option nat) (retry_count : Z) (w : World)
    (response : Response) (body : dict)
    (Hreply : transport E (sent w) (built_request E self method endpoint params data w)
              = Reply response)
    (Hbody : error_free response body) :
  _request E self method endpoint params data retry_count w
  = (Return (PDict body),
     with_sent (prepared self params w) (built_request E self method endpoint params data w)).
Proof.
  rewrite request_unfold. cbv zeta. rewrite Hreply.
  by apply handle_response_error_free.
Qed.

Lemma request_returns_error_free_body_witness :
  transport (sample_env (constantly not_found_page)) (sent empty_world)
    (built_request (sample_env (constantly not_found_page)) (sample_client true 3)
       "GET" "12345" None None empty_world)
  = Reply not_found_page
  /\ error_free not_found_page {["id" := PStr "12345"]}
  /\ _request (sample_env (constantly not_found_page)) (sample_client true 3)
              "GET" "12345" None None 0 empty_world
     = (Return (PDict {["id" := PStr "12345"]}),
        with_sent (prepared (sample_client true 3) None empty_world)
          (built_request (sample_env (constantly not_found_page)) (sample_client true 3)
             "GET" "12345" None None empty_world)).
Proof.
  assert (H1 : transport (sample_env (constantly not_found_page)) (sent empty_world)
                 (built_request (sample_env (constantly not_found_page)) (sample_client true 3)
                    "GET" "12345" None None empty_world)
               = Reply not_found_page) by reflexivity.
  assert (H2 : error_free not_found_page {["id" := PStr "12345"]})
    by (split; [reflexivity | vm_compute; reflexivity]).
  split; [exact H1|]. split; [exact H2|].
  exact (request_returns_error_free_body (sample_env (constantly not_found_page))
           (sample_client true 3) "GET" "12345" None None 0 empty_world
           not_found_page {["id" := PStr "12345"]} H1 H2).
Defined.

(** X2.  A failure of the transport or an answer that is not JSON ends the
    call at once, whatever the retry configuration and the HTTP status
    (a 429 included): one request, no sleep, and a [ThreatExchangeError],
    "Request failed" for the transport, and for a body that is not JSON
    the status as code from 400 on and no code below. *)
Theorem request_fails_without_retry (E : Env) (self : BaseClient)
    (method endpoint : string) (params data : option nat) (retry_count : Z) (w : World)
    (err : ApiError)
    (Hfail : exchange_failure
               (transport E (sent w) (built_request E self method endpoint params data w))
             = Some err) :
  _request E self method endpoint params data retry_count w
  = (Raise (ApiExn err),
     with_sent (prepared self params w) (built_request E self method endpoint params data w))
  /\ cls err = ThreatExchangeError.
Proof.
  rewrite request_unfold. cbv zeta. unfold exchange_failure in Hfail.
  destruct (transport E (sent w) _) as [e|response].
  { injection Hfail as <-. split; reflexivity. }
  unfold _handle_response. destruct (json response); [discriminate|].
  injection Hfail as <-. unfold not_json_error.
  destruct (400 <=? status_code response)%Z; split; reflexivity.
Qed.

(** A 429 answer with an HTML body and a [Retry-After] header, to a client
    with retries enabled. *)
Lemma request_fails_without_retry_witness :
  exchange_failure
    (transport (sample_env (constantly too_many_requests_html)) (sent empty_world)
       (built_request (sample_env (constantly too_many_requests_html)) (sample_client true 3)
          "GET" "12345" None None empty_world))
  = Some {| cls := ThreatExchangeError;
            message := PStr "API error: 429 - <html>slow down</html>";
            code := PInt 429; details := ∅; retry_after := None |}
  /\ _request (sample_env (constantly too_many_requests_html)) (sample_client true 3)
              "GET" "12345" None None 0 empty_world
     = (Raise (ApiExn {| cls := ThreatExchangeError;
                         message := PStr "API error: 429 - <html>slow down</html>";
                         code := PInt 429; details := ∅; retry_after := None |}),
        with_sent (prepared (sample_client true 3) None empty_world)
          (built_request (sample_env (constantly too_many_requests_html)) (sample_client true 3)
             "GET" "12345" None None empty_world))
  /\ cls {| cls := ThreatExchangeError;
            message := PStr "API error: 429 - <html>slow down</html>";
            code := PInt 429; details := ∅; retry_after := None |} = ThreatExchangeError.
Proof.
  assert (H : exchange_failure
                (transport (sample_env (constantly too_many_requests_html)) (sent empty_world)
                   (built_request (sample_env (constantly too_many_requests_html))
                      (sample_client true 3) "GET" "12345" None None empty_world))
              = Some {| cls := ThreatExchangeError;
                        message := PStr "API error: 429 - <html>slow down</html>";
                        code := PInt 429; details := ∅; retry_after := None |})
    by (vm_compute; reflexivity).
  split; [exact H|].
  exact (request_fails_without_retry (sample_env (constantly too_many_requests_html))
           (sample_client true 3) "GET" "12345" None None 0 empty_world _ H).
Defined.

(** X3.  All the requests that one call of [_request] issues, retries
    included, are one and the same request: same verb, URL, query
    parameters, body and timeout as the first. *)
Theorem retries_repeat_the_request (E : Env) (self : BaseClient)
    (method endpoint : string) (params data : option nat) (retry_count : Z) (w : World) :
  exists new,
    sent (snd (_request E self method endpoint params data retry_count w)) = sent w ++ new
    /\ Forall (fun r => r = built_request E self method endpoint params data w) new.
Proof. apply request_fuel_same_requests. Qed.



(** The sleeps of that call: 7 seconds, then the default 60. *)
Lemma recovering_call_sleeps :
  slept (snd (_request (sample_env (scripted recovering_script)) (sample_client true 3)
                       "GET" "12345" None None 0 empty_world)) = [7; 60]%Z.
Proof. vm_compute. reflexivity. Qed.

(** X5.  [_request] writes to one dictionary only, the one that holds its
    parameters: every other object of the heap, the dictionary of the body
    parameters among them, is after the call what it was before. *)
Theorem request_leaves_other_objects (E : Env) (self : BaseClient)
    (method endpoint : string) (params data : option nat) (retry_count : Z) (w : World)
    (l : nat) (d : dict)
    (Hl : heap w !! l = Some d)
    (Hother : params <> Some l) :
  heap (snd (_request E self method endpoint params data retry_count w)) !! l = Some d.
Proof.
  unfold _request, request_depth. rewrite request_fuel_heap.
  unfold prepared. cbn [heap]. rewrite lookup_insert_ne; [exact Hl|].
  unfold param_loc. destruct params as [p|]; [|by eapply fresh_not_allocated].
  destruct (dict_truthy _); [congruence | by eapply fresh_not_allocated].
Qed.

(** The body parameters of a [POST] are left as the caller wrote them. *)
Lemma request_leaves_other_objects_witness :
  heap (world_with {["member" := PStr "42"]}) !! 0 = Some {["member" := PStr "42"]}
  /\ (None : option nat) <> Some 0
  /\ heap (snd (_request empty_page_env (sample_client false 3) "POST" "1/members" None (Some 0) 0
                         (world_with {["member" := PStr "42"]}))) !! 0
     = Some {["member" := PStr "42"]}.
Proof.
  assert (H1 : heap (world_with {["member" := PStr "42"]}) !! 0 = Some {["member" := PStr "42"]})
    by reflexivity.
  assert (H2 : (None : option nat) <> Some 0) by discriminate.
  split; [exact H1|]. split; [exact H2|].
  exact (request_leaves_other_objects empty_page_env (sample_client false 3) "POST" "1/members"
           None (Some 0) 0 (world_with {["member" := PStr "42"]}) 0 _ H1 H2).
Defined.

(** * The URL of a request *)

Lemma startswith_http_lstrip (endpoint : string) :
  startswith "http" endpoint = true -> lstrip_slash endpoint = endpoint.
Proof.
  destruct endpoint as [|a s]; [discriminate|].
  unfold startswith. cbn [String.prefix].
  destruct (ascii_dec "h" a) as [<-|]; [reflexivity | discriminate].
Qed.

Lemma lstrip_slash_idem (endpoint : string) :
  lstrip_slash (lstrip_slash endpoint) = lstrip_slash endpoint.
Proof.
  induction endpoint as [|a s IH]; [reflexivity|].
  cbn [lstrip_slash].
  destruct a as [[] [] [] [] [] [] [] []]; try reflexivity. exact IH.
Qed.

(** X6.  The leading slashes of a relative endpoint are insignificant:
    when the endpoint without them does not begin with "http", the URL is
    that of the endpoint without them, and one more slash in front changes
    nothing.  (An endpoint that begins with "http" is taken for a URL and
    returned as it is.) *)
Theorem build_url_ignores_leading_slashes (E : Env) (self : BaseClient) (endpoint : string)
    (Hrel : startswith "http" (lstrip_slash endpoint) = false) :
  _build_url E self endpoint = _build_url E self (lstrip_slash endpoint)
  /\ _build_url E self ("/" +:+ endpoint) = _build_url E self endpoint
  /\ _build_url E self endpoint
     = urljoin E (BASE_URL +:+ "/" +:+ version self +:+ "/") (lstrip_slash endpoint).
Proof.
  assert (Hrel' : startswith "http" endpoint = false).
  { destruct (startswith "http" endpoint) eqn:Hs; [|reflexivity].
    rewrite (startswith_http_lstrip endpoint Hs) in Hrel. congruence. }
  unfold _build_url. rewrite Hrel, Hrel', lstrip_slash_idem.
  repeat split.
Qed.

Lemma build_url_ignores_leading_slashes_witness :
  startswith "http" (lstrip_slash "//threat_descriptors") = false
  /\ _build_url empty_page_env (sample_client false 3) "//threat_descriptors"
     = _build_url empty_page_env (sample_client false 3) (lstrip_slash "//threat_descriptors")
  /\ _build_url empty_page_env (sample_client false 3) ("/" +:+ "//threat_descriptors")
     = _build_url empty_page_env (sample_client false 3) "//threat_descriptors"
  /\ _build_url empty_page_env (sample_client false 3) "//threat_descriptors"
     = urljoin empty_page_env
         (BASE_URL +:+ "/" +:+ version (sample_client false 3) +:+ "/")
         (lstrip_slash "//threat_descriptors").
Proof.
  assert (H : startswith "http" (lstrip_slash "//threat_descriptors") = false) by reflexivity.
  split; [exact H|].
  exact (build_url_ignores_leading_slashes empty_page_env (sample_client false 3)
           "//threat_descriptors" H).
Defined.

(** An identifier that begins with "http" is not joined to the base URL. *)
Lemma build_url_http_prefix :
  _build_url empty_page_env (sample_client false 3) "threat_descriptors"
  = "https://graph.facebook.com/v19.0/threat_descriptors"
  /\ _build_url empty_page_env (sample_client false 3) "http_requests/reactions"
     = "http_requests/reactions".
Proof. split; reflexivity. Qed.

(** * The form data of an upload *)

Section UploadData.

Context (E : Env) (self : BaseClient).

(** The heap after an upload, however it ends: the token was set in the
    form data, and nothing else changed but the parameter object of a
    retried request, which is a new one. *)
Lemma upload_file_keeps (l : nat) (d : dict) (endpoint : string)
    (file_path file_content file_name : option string) (data : option nat) (w : World) :
  heap (prepared self data w) !! l = Some d ->
  heap (snd (_upload_file E self endpoint file_path file_content file_name data w)) !! l = Some d.
Proof.
  intros Hl. rewrite upload_file_step.
  destruct (upload_part E file_path file_content file_name) as [file|]; [|exact Hl].
  cbv zeta.
  set (r := upload_request E self endpoint data file w).
  set (w1 := with_sent (prepared self data w) r).
  destruct (transport E (sent w) r) as [e|response]; [exact Hl|].
  destruct (handle_response_cases E self (_request E self) response "POST" endpoint None
              (Some (param_loc data w)) 0 w1)
    as [(o & _ & ->)|(_ & _ & ->)]; [exact Hl|].
  unfold bind, time_sleep.
  destruct (_get_retry_after E response <? 0)%Z; [exact Hl|].
  unfold _request, request_depth. rewrite request_fuel_heap.
  unfold prepared at 1. cbn [heap param_loc]. rewrite lookup_insert_ne; [exact Hl|].
  eapply (fresh_not_allocated w1). exact Hl.
Qed.

End UploadData.

(** X7.  An upload sets the client's token in the caller's form data: a
    non-empty dictionary passed as [data] is mutated in place and is,
    after the call and however it ends, the old one with
    ["access_token"] set to the client's token; that dictionary is the
    form data of the multipart request, so that, unlike in [_request], an
    ["access_token"] entry of the caller never replaces the token. *)
Theorem upload_sets_token_in_caller_data (E : Env) (self : BaseClient) (endpoint : string)
    (file_path file_content file_name : option string) (l : nat) (d : dict) (w : World)
    (Hl : heap w !! l = Some d) (Hd : d <> ∅) :
  heap (snd (_upload_file E self endpoint file_path file_content file_name (Some l) w)) !! l
  = Some (<["access_token" := PStr (access_token self)]> d)
  /\ forall file,
       upload_part E file_path file_content file_name = Some file ->
       exists r rest,
         sent (snd (_upload_file E self endpoint file_path file_content file_name (Some l) w))
         = sent w ++ r :: rest
         /\ req_files r = Some file
         /\ req_data r = Some (<["access_token" := PStr (access_token self)]> d).
Proof.
  split.
  - apply upload_file_keeps. by apply prepared_caller.
  - intros file Hfile.
    destruct (upload_file_sent E self endpoint file_path file_content file_name (Some l) file w
                Hfile) as (rest & Hsent).
    eexists _, rest. split; [exact Hsent|]. split; [reflexivity|].
    unfold upload_request, param_dict. cbn [req_data].
    rewrite Hl. cbn [default from_option id]. by rewrite (dict_truthy_non_empty d Hd).
Qed.

(** The caller's form data defines ["access_token"] itself. *)
Lemma upload_sets_token_in_caller_data_witness :
  heap (world_with {["access_token" := PStr "another token"]}) !! 0
  = Some {["access_token" := PStr "another token"]}
  /\ ({["access_token" := PStr "another token"]} : dict) <> ∅
  /\ heap (snd (_upload_file empty_page_env (sample_client false 3) "malware_analyses"
                             None (Some "in memory") (Some "sample.bin") (Some 0)
                             (world_with {["access_token" := PStr "another token"]}))) !! 0
     = Some (<["access_token" := PStr (access_token (sample_client false 3))]>
               {["access_token" := PStr "another token"]})
  /\ forall file,
       upload_part empty_page_env None (Some "in memory") (Some "sample.bin") = Some file ->
       exists r rest,
         sent (snd (_upload_file empty_page_env (sample_client false 3) "malware_analyses"
                                 None (Some "in memory") (Some "sample.bin") (Some 0)
                                 (world_with {["access_token" := PStr "another token"]})))
         = sent (world_with {["access_token" := PStr "another token"]}) ++ r :: rest
         /\ req_files r = Some file
         /\ req_data r
            = Some (<["access_token" := PStr (access_token (sample_client false 3))]>
                      {["access_token" := PStr "another token"]}).
Proof.
  assert (H1 : heap (world_with {["access_token" := PStr "another token"]}) !! 0
               = Some {["access_token" := PStr "another token"]}) by reflexivity.
  assert (H2 : ({["access_token" := PStr "another token"]} : dict) <> ∅)
    by (vm_compute; discriminate).
  split; [exact H1|]. split; [exact H2|].
  exact (upload_sets_token_in_caller_data empty_page_env (sample_client false 3)
           "malware_analyses" None (Some "in memory") (Some "sample.bin") 0
           {["access_token" := PStr "another token"]}
           (world_with {["access_token" := PStr "another token"]}) H1 H2).
Defined.

(** The same form data passed to [_request]: there the caller's entry is
    what the server receives. *)
Lemma request_body_keeps_caller_token :
  req_data <$> sent (snd (_request empty_page_env (sample_client false 3) "POST" "malware_analyses"
                                   None (Some 0) 0
                                   (world_with {["access_token" := PStr "another token"]})))
  = [Some {["access_token" := PStr "another token"]}]
  /\ req_data <$> sent (snd (_upload_file empty_page_env (sample_client false 3) "malware_analyses"
                                          None (Some "in memory") (Some "sample.bin") (Some 0)
                                          (world_with {["access_token" := PStr "another token"]})))
     = [Some {["access_token" := PStr "test_token"]}].
Proof. split; vm_compute; reflexivity. Qed.

(** * Traversal without limit *)

Lemma map_outcome_Return (items : list pyval) : map_outcome Return items = Return items.
Proof. induction items as [|x r IH]; [reflexivity|]. cbn. rewrite IH. reflexivity. Qed.

Lemma map_outcome_app {A B} (f : A -> outcome B) (xs ys : list A) (zs : list B) :
  map_outcome f (xs ++ ys) = Return zs ->
  exists xs' ys',
    map_outcome f xs = Return xs' /\ map_outcome f ys = Return ys' /\ zs = xs' ++ ys'.
Proof.
  revert zs. induction xs as [|x xs IH]; intros zs H; cbn in *.
  { exists [], zs. done. }
  destruct (f x) as [y| |]; cbn in *; try discriminate.
  destruct (map_outcome f (xs ++ ys)) as [r| |] eqn:Hr; cbn in *; try discriminate.
  injection H as <-.
  destruct (IH r eq_refl) as (xs' & ys' & -> & Hys & ->).
  exists (y :: xs'), ys'. done.
Qed.

Lemma map_outcome_length {A B} (f : A -> outcome B) (xs : list A) (ys : list B) :
  map_outcome f xs = Return ys -> List.length ys = List.length xs.
Proof.
  revert ys. induction xs as [|x xs IH]; intros ys H; cbn in *.
  { by injection H as <-. }
  destruct (f x) as [y| |]; cbn in *; try discriminate.
  destruct (map_outcome f xs) as [r| |]; cbn in *; try discriminate.
  injection H as <-. cbn. by rewrite (IH r).
Qed.

Lemma from_dict_page_body_factory (items converted : list pyval) (next : option string)
    (item_factory : option (pyval -> outcome pyval)) :
  map_outcome (apply_factory item_factory) items = Return converted ->
  from_dict (page_body items next) item_factory = Return (page_response converted next).
Proof.
  intros Hc. destruct item_factory as [f|].
  - change (map_outcome f items = Return converted) in Hc.
    unfold from_dict, page_body, page_response. cbn [py_get obind].
    rewrite lookup_insert_eq. cbn [default from_option id obind py_iter]. rewrite Hc.
    cbn [obind].
    rewrite lookup_insert_ne by done. rewrite lookup_insert_eq.
    cbn [default from_option id py_get obind].
    destruct next as [u|].
    + rewrite lookup_singleton_eq. reflexivity.
    + rewrite lookup_empty. reflexivity.
  - change (map_outcome Return items = Return converted) in Hc.
    rewrite map_outcome_Return in Hc. injection Hc as <-. apply from_dict_page_body.
Qed.

Section UnlimitedDrain.

Context (E : Env) (self : BaseClient).

(** Draining a generator suspended in a page when the limit is off: the
    items left in the page are yielded, and the traversal goes on from
    the end of the page. *)
Lemma suspended_drain_off (fuel : nat) (response : PaginatedResponse) (rest : list pyval) :
  forall (v : Locals) (w : World) (n : nat),
    limit_off (l_limit v) ->
    List.length rest < n ->
    drain E self n fuel (GenSuspended v response rest) w
    = omap (app rest)
        (collect E self (n - 1 - List.length rest) fuel
           (for_items (while_true E self fuel)
              (with_count v (l_count v + 1 + Z.of_nat (List.length rest))%Z) response [])
           w).
Proof.
  induction rest as [|item rest IH]; intros v w n Hoff Hn;
    (destruct n as [|n]; [cbn in Hn; lia|]); cbn [drain gen_next];
    cbn [with_count l_limit l_count]; rewrite Hoff.
  - cbn [List.length Z.of_nat]. rewrite Z.add_0_r, Nat.sub_0_r. cbn [Nat.sub].
    rewrite Nat.sub_0_r, omap_app_nil. reflexivity.
  - unfold for_items at 1. unfold bind at 1, ret at 1. cbn [fst snd].
    unfold bind at 1. cbn [List.length] in Hn.
    rewrite (IH _ w n); [| exact Hoff | lia].
    cbn [with_count l_count]. rewrite with_count_twice.
    replace (l_count v + 1 + 1 + Z.of_nat (List.length rest))%Z
      with (l_count v + 1 + Z.of_nat (List.length (item :: rest)))%Z
      by (cbn [List.length]; lia).
    replace (n - 1 - List.length rest) with (S n - 1 - List.length (item :: rest))
      by (cbn [List.length]; lia).
    match goal with |- context [collect E self ?a ?b ?c w] =>
      destruct (collect E self a b c w) as [[items|e|] w']
    end; reflexivity.
Qed.

(** A page at the head of the [for] loop when the limit is off: the whole
    page is yielded; the traversal then stops on the last page and fetches
    the next one otherwise. *)
Lemma page_step_off (fuel fuel' n : nat) (items : list pyval) (next : option string)
    (v : Locals) (w : World) :
  limit_off (l_limit v) ->
  List.length items <= n ->
  collect E self n fuel (for_items (while_true E self fuel') v (page_response items next) items) w
  = match next with
    | None => (Return items, w)
    | Some u =>
        omap (app items)
          (collect E self (n - List.length items) fuel
             (while_true E self (match items with [] => fuel' | _ => fuel end)
                (with_next_url (with_count v (l_count v + Z.of_nat (List.length items))%Z)
                   (PStr u)))
             w)
    end.
Proof.
  intros Hoff Hn. destruct items as [|item rest].
  - rewrite collect_for_items_nil. cbn [List.length Z.of_nat].
    destruct next as [u|]; cbn [page_response has_next next_url]; [|reflexivity].
    rewrite Z.add_0_r, with_count_same, Nat.sub_0_r, omap_app_nil. reflexivity.
  - cbn [for_items]. unfold collect at 1, bind at 1, ret at 1. cbn [fst snd].
    cbn [List.length] in Hn. unfold bind at 1.
    rewrite (suspended_drain_off fuel (page_response (item :: rest) next) rest v w n Hoff)
      by lia.
    rewrite collect_for_items_nil.
    destruct next as [u|]; cbn [page_response has_next next_url].
    + replace (l_count v + 1 + Z.of_nat (List.length rest))%Z
        with (l_count v + Z.of_nat (List.length (item :: rest)))%Z
        by (cbn [List.length]; lia).
      replace (n - 1 - List.length rest) with (n - List.length (item :: rest))
        by (cbn [List.length]; lia).
      match goal with |- context [collect E self ?a ?b ?c w] =>
        destruct (collect E self a b c w) as [[items|e|] w']
      end; reflexivity.
    + cbn. by rewrite app_nil_r.
Qed.

End UnlimitedDrain.

Section UnlimitedTraversal.

Context (E : Env) (self : BaseClient) (script : list Response).
Hypothesis Htransport : transport E = scripted script.

(** From the head of the [while] loop with the limit off and the script
    at the pages [pages], [last]: the traversal yields the items of all
    these pages, converted, and fetches each page once. *)
Lemma while_true_scripted_off (last : list pyval) (pages : list (list pyval * string)) :
  forall (v : Locals) (w : World) (n fuel fuel' : nat) (converted : list pyval),
    drop (List.length (sent w)) script = page_script pages last ->
    limit_off (l_limit v) ->
    map_outcome (apply_factory (l_item_factory v)) (all_items pages last) = Return converted ->
    (l_next_url v = PNone \/ exists u, l_next_url v = PStr u) ->
    List.length pages < fuel ->
    List.length pages < fuel' ->
    List.length (all_items pages last) <= n ->
    exists w',
      collect E self n fuel (while_true E self fuel' v) w = (Return converted, w')
      /\ List.length (sent w') = List.length (sent w) + S (List.length pages).
Proof.
  induction pages as [|[items u] pages IH];
    intros v w n fuel fuel' converted Hdrop Hoff Hconv Hnext Hfuel Hfuel' Hn;
    (destruct fuel' as [|fuel']; [cbn in Hfuel'; lia|]);
    cbn [while_true]; rewrite collect_bind;
    apply script_head in Hdrop as [Hhead Htail]; cbn [fst snd] in Hhead.
  - destruct (fetch_page_scripted E self script Htransport v _ w Hhead
                (has_error_key_page_body last None) Hnext)
      as (v1 & w1 & -> & Hlen & Hv1 & Hc1 & Hf1).
    unfold all_items, item_lists in Hconv, Hn. cbn [fmap list_fmap app List.concat] in Hconv, Hn.
    rewrite app_nil_r in Hconv, Hn.
    rewrite collect_bind. cbn [fst snd]. rewrite Hf1.
    rewrite (from_dict_page_body_factory last converted None _ Hconv).
    unfold lift at 1. rewrite collect_bind. cbn [page_response data py_iter]. unfold lift at 1.
    change {| data := PList converted; next_url := PNone; has_next := false |}
      with (page_response converted None).
    rewrite (page_step_off E self fuel fuel' n converted None v1 w1);
      [| by rewrite Hv1 | rewrite (map_outcome_length _ _ _ Hconv); lia].
    exists w1. split; [reflexivity|]. rewrite Hlen. cbn. lia.
  - assert (Hall : all_items ((items, u) :: pages) last = items ++ all_items pages last)
      by reflexivity.
    rewrite Hall in Hconv, Hn. rewrite length_app in Hn.
    apply map_outcome_app in Hconv as (here & later & Hhere & Hlater & ->).
    pose proof (map_outcome_length _ _ _ Hhere) as Hlh.
    destruct (fetch_page_scripted E self script Htransport v _ w Hhead
                (has_error_key_page_body items (Some u)) Hnext)
      as (v1 & w1 & -> & Hlen & Hv1 & Hc1 & Hf1).
    rewrite collect_bind. cbn [fst snd]. rewrite Hf1.
    rewrite (from_dict_page_body_factory items here (Some u) _ Hhere).
    unfold lift at 1. rewrite collect_bind. cbn [page_response data py_iter]. unfold lift at 1.
    change {| data := PList here; next_url := PStr u; has_next := true |}
      with (page_response here (Some u)).
    rewrite (page_step_off E self fuel fuel' n here (Some u) v1 w1);
      [| by rewrite Hv1 | lia].
    set (v2 := with_next_url (with_count v1 (l_count v1 + Z.of_nat (List.length here))%Z) (PStr u)).
    set (f := match here with [] => fuel' | _ => fuel end).
    assert (Hfl : List.length pages < f).
    { unfold f. cbn [List.length] in Hfuel, Hfuel'. destruct here; lia. }
    cbn [List.length] in Hfuel.
    destruct (IH v2 w1 (n - List.length here) fuel f later) as (w' & Hrun & Hsent);
      [by rewrite Hlen | cbn; by rewrite Hv1 | cbn; by rewrite Hf1 | right; by eexists
      | lia | exact Hfl | lia |].
    exists w'. rewrite Hrun. split; [reflexivity|].
    rewrite Hsent, Hlen. cbn [List.length]. lia.
Qed.

End UnlimitedTraversal.

(** ** A limit of zero *)

(** C9.  A traversal with [limit = 0] does not end after zero items: it
    yields every item of every page.  Against a server that serves the
    pages [pages] with continuation URLs and then a [last] page, the
    generator with [limit = 0], drained to its end, yields the items of
    all pages in page order (converted by the factory, and as they are
    without one) and has then sent one request per page.  More generally
    [limit = 0] is no limit at all: on any arguments, in any world and
    against any server, the traversals with [limit = 0] and with
    [limit = None] yield the same items, issue the same requests and end
    in the same way; the test [limit and count >= limit] never holds for
    either. *)
Theorem limit_zero_is_no_limit (E : Env) (self : BaseClient)
    (pages : list (list pyval * string)) (last : list pyval)
    (endpoint : string) (params : option nat) (item_factory : option (pyval -> outcome pyval))
    (converted : list pyval) (n fuel : nat) (w : World)
    (Htransport : transport E = scripted (page_script pages last))
    (Hsent : sent w = [])
    (Hfactory : map_outcome (apply_factory item_factory) (all_items pages last) = Return converted)
    (Hn : List.length (all_items pages last) < n)
    (Hfuel : List.length pages < fuel) :
  (exists w',
     drain E self n fuel (GenCreated endpoint params item_factory (Some 0%Z)) w
     = (Return converted, w')
     /\ List.length converted = List.length (all_items pages last)
     /\ (item_factory = None -> converted = all_items pages last)
     /\ List.length (sent w') = S (List.length pages))
  /\ (forall (E' : Env) (self' : BaseClient) (n' fuel' : nat) (endpoint' : string)
         (params' : option nat) (item_factory' : option (pyval -> outcome pyval)) (w0 : World),
         drain E' self' n' fuel' (GenCreated endpoint' params' item_factory' (Some 0%Z)) w0
         = drain E' self' n' fuel' (GenCreated endpoint' params' item_factory' None) w0)
  /\ limit_off (Some 0%Z) /\ limit_off None.
Proof.
  assert (Hzero : limit_off (Some 0%Z)) by (intros c; reflexivity).
  split; [|split; [|split; [exact Hzero | intros c; reflexivity]]].
  - destruct n as [|n]; [lia|].
    destruct (gen_next_created E self fuel endpoint params item_factory (Some 0%Z) w)
      as (p & w1 & Hs1 & Hgen).
    destruct (while_true_scripted_off E self (page_script pages last) Htransport last pages
                {| l_endpoint := endpoint; l_params := p; l_item_factory := item_factory;
                   l_limit := Some 0%Z; l_count := 0; l_next_url := PNone |}
                w1 n fuel fuel converted) as (w' & Hrun & Hlen);
      [by rewrite Hs1, Hsent | exact Hzero | exact Hfactory | by left | lia | lia | lia |].
    rewrite Hs1, Hsent in Hlen. cbn [List.length Nat.add] in Hlen.
    exists w'. split; [|split; [exact (map_outcome_length _ _ _ Hfactory) | split; [|exact Hlen]]].
    + cbn [drain]. unfold collect, bind in Hrun. unfold bind at 1. rewrite Hgen. exact Hrun.
    + intros ->. change (map_outcome Return (all_items pages last) = Return converted) in Hfactory.
      rewrite map_outcome_Return in Hfactory. by injection Hfactory as <-.
  - intros E' self' n' fuel' endpoint' params' item_factory' w0.
    exact (drain_relimit E' self' (Some 0%Z) n' fuel'
             (GenCreated endpoint' params' item_factory' None) w0 Hzero).
Qed.

(** The two-page scenario with [limit = 0]: both items, two requests. *)
Lemma limit_zero_is_no_limit_witness :
  transport two_page_env = scripted (page_script two_pages second_page)
  /\ sent empty_world = []
  /\ map_outcome (apply_factory None) (all_items two_pages second_page)
     = Return [PDict {["id" := PStr "1"]}; PDict {["id" := PStr "2"]}]
  /\ List.length (all_items two_pages second_page) < 3
  /\ List.length two_pages < 2
  /\ (exists w',
        drain two_page_env (sample_client false 3) 3 2
              (GenCreated "threat_descriptors" None None (Some 0%Z)) empty_world
        = (Return [PDict {["id" := PStr "1"]}; PDict {["id" := PStr "2"]}], w')
        /\ List.length [PDict {["id" := PStr "1"]}; PDict {["id" := PStr "2"]}]
           = List.length (all_items two_pages second_page)
        /\ ((None : option (pyval -> outcome pyval)) = None ->
            [PDict {["id" := PStr "1"]}; PDict {["id" := PStr "2"]}]
            = all_items two_pages second_page)
        /\ List.length (sent w') = S (List.length two_pages))
  /\ (forall (E' : Env) (self' : BaseClient) (n' fuel' : nat) (endpoint' : string)
         (params' : option nat) (item_factory' : option (pyval -> outcome pyval)) (w0 : World),
         drain E' self' n' fuel' (GenCreated endpoint' params' item_factory' (Some 0%Z)) w0
         = drain E' self' n' fuel' (GenCreated endpoint' params' item_factory' None) w0)
  /\ limit_off (Some 0%Z) /\ limit_off None.
Proof.
  assert (H1 : transport two_page_env = scripted (page_script two_pages second_page))
    by reflexivity.
  assert (H2 : sent empty_world = []) by reflexivity.
  assert (H3 : map_outcome (apply_factory None) (all_items two_pages second_page)
               = Return [PDict {["id" := PStr "1"]}; PDict {["id" := PStr "2"]}])
    by reflexivity.
  assert (H4 : List.length (all_items two_pages second_page) < 3) by (vm_compute; lia).
  assert (H5 : List.length two_pages < 2) by (vm_compute; lia).
  repeat (split; [assumption|]).
  exact (limit_zero_is_no_limit two_page_env (sample_client false 3) two_pages second_page
           "threat_descriptors" None None
           [PDict {["id" := PStr "1"]}; PDict {["id" := PStr "2"]}] 3 2 empty_world
           H1 H2 H3 H4 H5).
Defined.



(** * A negative limit *)

Section StepKeeps.

Context (E : Env) (self : BaseClient).

Lemma fetch_page_locals (v v' : Locals) (body : pyval) (w w' : World) :
  fetch_page E self v w = (Return (body, v'), w') ->
  l_limit v' = l_limit v /\ l_count v' = l_count v.
Proof.
  unfold fetch_page. destruct (truthy (l_next_url v)).
  - destruct (l_next_url v); try discriminate.
    unfold bind at 1, alloc at 1. cbn [fst snd].
    unfold bind at 1, store at 1.
    unfold bind at 1.
    match goal with |- context [_get E self ?e ?p ?w1] =>
      destruct (_get E self e p w1) as [[result|e'|] w2]
    end; try discriminate.
    unfold ret. intros [= _ <- _]. done.
  - unfold bind at 1.
    destruct (_get E self (l_endpoint v) (Some (l_params v)) w) as [[result|e'|] w2];
      try discriminate.
    unfold ret. intros [= _ <- _]. done.
Qed.

(** The limit and the count are those of the traversal when it suspends. *)
Lemma while_true_step (fuel : nat) :
  forall (v : Locals) (w w' : World) (step : option pyval * Generator),
    while_true E self fuel v w = (Return step, w') ->
    step_keeps (l_limit v) (l_count v) step.
Proof.
  induction fuel as [|fuel IH]; intros v w w' step; [discriminate|].
  cbn [while_true]. unfold bind at 1.
  destruct (fetch_page E self v w) as [[[body v1]|e|] w1] eqn:Hfetch; try discriminate.
  apply fetch_page_locals in Hfetch as [Hlim Hcount]. cbn [fst snd].
  unfold bind at 1, lift at 1.
  destruct (from_dict body (l_item_factory v1)) as [response|e|]; try discriminate.
  unfold bind at 1, lift at 1.
  destruct (py_iter (data response)) as [items|e|]; try discriminate.
  unfold for_items. destruct items as [|item rest].
  - destruct (negb (has_next response)).
    + unfold ret. intros [= <- _]. exact I.
    + intros Hrun. apply IH in Hrun. cbn [with_next_url l_limit l_count] in Hrun.
      by rewrite <- Hlim, <- Hcount.
  - unfold ret. intros [= <- _]. cbn. done.
Qed.

Lemma gen_next_created_step (fuel : nat) (endpoint : string) (params : option nat)
    (item_factory : option (pyval -> outcome pyval)) (limit : option Z) (w w' : World)
    (step : option pyval * Generator) :
  gen_next E self fuel (GenCreated endpoint params item_factory limit) w = (Return step, w') ->
  step_keeps limit 0 step.
Proof.
  destruct (gen_next_created E self fuel endpoint params item_factory limit w)
    as (p & w1 & _ & ->).
  intros Hrun. by apply while_true_step in Hrun.
Qed.

(** The first step of a traversal does not look at the limit. *)
Lemma gen_next_created_relimit (lim lim' : option Z) (fuel : nat) (endpoint : string)
    (params : option nat) (item_factory : option (pyval -> outcome pyval)) (w : World) :
  gen_next E self fuel (GenCreated endpoint params item_factory lim) w
  = omap (on_generator (relimit lim))
      (gen_next E self fuel (GenCreated endpoint params item_factory lim') w).
Proof.
  cbn [gen_next].
  apply bind_omap_same. intros params' w1.
  apply bind_omap_same. intros p w2.
  apply bind_omap_same. intros _ w3.
  apply (while_true_set_limit E self lim fuel
           {| l_endpoint := endpoint; l_params := params'; l_item_factory := item_factory;
              l_limit := lim'; l_count := 0; l_next_url := PNone |}).
Qed.

(** A traversal whose limit is reached by one item. *)
Lemma drain_one_item (lim : Z) (n fuel : nat) (endpoint : string) (params : option nat)
    (item_factory : option (pyval -> outcome pyval)) (w : World) :
  limit_reached (Some lim) 1 = true ->
  drain E self (S (S n)) fuel (GenCreated endpoint params item_factory (Some lim)) w
  = match gen_next E self fuel (GenCreated endpoint params item_factory (Some lim)) w with
    | (Return (Some item, _), w') => (Return [item], w')
    | (Return (None, _), w') => (Return [], w')
    | (Raise e, w') => (Raise e, w')
    | (OutOfFuel, w') => (OutOfFuel, w')
    end.
Proof.
  intros Hone. cbn [drain]. unfold bind at 1.
  destruct (gen_next E self fuel (GenCreated endpoint params item_factory (Some lim)) w)
    as [[[item g]|e|] w1] eqn:Hrun; try reflexivity.
  apply gen_next_created_step in Hrun.
  destruct item as [item|]; [|reflexivity]. cbn [fst snd].
  destruct g as [|v response rest|]; try done. destruct Hrun as [Hlim Hcount].
  unfold bind at 1. cbn [gen_next with_count l_limit l_count].
  rewrite Hlim, Hcount. change (0 + 1)%Z with 1%Z. rewrite Hone. reflexivity.
Qed.

(** One step of [drain]. *)
Lemma drain_one_step (fuel : nat) (g : Generator) (w : World) :
  drain E self 1 fuel g w
  = match gen_next E self fuel g w with
    | (Return (Some item, _), w') => (OutOfFuel, w')
    | (Return (None, _), w') => (Return [], w')
    | (Raise e, w') => (Raise e, w')
    | (OutOfFuel, w') => (OutOfFuel, w')
    end.
Proof.
  cbn [drain]. unfold bind at 1.
  destruct (gen_next E self fuel g w) as [[[[item|] g1]|e|] w1]; reflexivity.
Qed.

End StepKeeps.

(** X9.  A negative limit is a limit of one: the test
    [limit and count >= limit] holds after the first item, so the
    traversal yields at most one item, and it yields the same item, sends
    the same requests and ends in the same way as with [limit = 1]. *)
Theorem negative_limit_is_limit_one (E : Env) (self : BaseClient) (n fuel : nat)
    (endpoint : string) (params : option nat) (item_factory : option (pyval -> outcome pyval))
    (lim : Z) (w : World)
    (Hneg : (lim < 0)%Z) :
  drain E self n fuel (GenCreated endpoint params item_factory (Some lim)) w
  = drain E self n fuel (GenCreated endpoint params item_factory (Some 1%Z)) w
  /\ forall items w',
       drain E self n fuel (GenCreated endpoint params item_factory (Some lim)) w
       = (Return items, w') ->
       List.length items <= 1.
Proof.
  assert (Hone : limit_reached (Some lim) 1 = true).
  { unfold limit_reached. apply andb_true_iff. split.
    - apply negb_true_iff, Z.eqb_neq. lia.
    - apply Z.leb_le. lia. }
  pose proof (gen_next_created_relimit E self (Some lim) (Some 1%Z) fuel endpoint params
                item_factory w) as Hfirst.
  destruct n as [|[|n]].
  - split; [reflexivity | discriminate].
  - rewrite !drain_one_step, Hfirst.
    destruct (gen_next E self fuel (GenCreated endpoint params item_factory (Some 1%Z)) w)
      as [[[[item|] g]|e|] w1]; cbn; (split; [reflexivity|]); intros items w' [= <- _];
      cbn; lia.
  - rewrite !drain_one_item by (exact Hone || reflexivity). rewrite Hfirst.
    destruct (gen_next E self fuel (GenCreated endpoint params item_factory (Some 1%Z)) w)
      as [[[[item|] g]|e|] w1]; cbn; (split; [reflexivity|]); intros items w' [= <- _];
      cbn; lia.
Qed.

(** The two-page scenario with a limit of [-5]. *)
Lemma negative_limit_is_limit_one_witness :
  (-5 < 0)%Z
  /\ drain two_page_env (sample_client false 3) 3 2
           (GenCreated "threat_descriptors" None None (Some (-5)%Z)) empty_world
     = drain two_page_env (sample_client false 3) 3 2
             (GenCreated "threat_descriptors" None None (Some 1%Z)) empty_world
  /\ forall items w',
       drain two_page_env (sample_client false 3) 3 2
             (GenCreated "threat_descriptors" None None (Some (-5)%Z)) empty_world
       = (Return items, w') ->
       List.length items <= 1.
Proof.
  assert (H : (-5 < 0)%Z) by lia.
  split; [exact H|].
  exact (negative_limit_is_limit_one two_page_env (sample_client false 3) 3 2
           "threat_descriptors" None None (-5) empty_world H).
Defined.

(** With a limit of [-5] the first item is yielded and the second page is
    never fetched. *)
Lemma two_pages_negative_limit :
  fst (drain two_page_env (sample_client false 3) 3 2
             (GenCreated "threat_descriptors" None None (Some (-5)%Z)) empty_world)
  = Return [PDict {["id" := PStr "1"]}]
  /\ List.length (sent (snd (drain two_page_env (sample_client false 3) 3 2
                                   (GenCreated "threat_descriptors" None None (Some (-5)%Z))
                                   empty_world))) = 1.
Proof. split; vm_compute; reflexivity. Qed.

(** * The first page of a traversal *)

Section FirstPage.

Context (E : Env) (self : BaseClient).

Lemma with_default_limit_truthy (d : dict) : dict_truthy (with_default_limit d) = true.
Proof.
  unfold with_default_limit. destruct (d !! "limit") as [x|] eqn:Hd.
  - apply dict_truthy_non_empty. intros ->. by rewrite lookup_empty in Hd.
  - apply dict_truthy_insert.
Qed.

(** The head of [_paginate]: the parameter object is chosen and given the
    page size where it has none. *)
Lemma gen_next_created_params (fuel : nat) (endpoint : string) (params : option nat)
    (item_factory : option (pyval -> outcome pyval)) (limit : option Z) (w : World) :
  exists w',
    sent w' = sent w
    /\ heap w' !! param_loc params w = Some (with_default_limit (param_dict params w))
    /\ gen_next E self fuel (GenCreated endpoint params item_factory limit) w
       = while_true E self fuel
           {| l_endpoint := endpoint; l_params := param_loc params w;
              l_item_factory := item_factory; l_limit := limit; l_count := 0;
              l_next_url := PNone |} w'.
Proof.
  cbn [gen_next].
  set (p := param_loc params w). set (d := param_dict params w).
  assert (Hnew : exists w1,
            sent w1 = sent w /\ default ∅ (heap w1 !! p) = d
            /\ (d = ∅ \/ heap w1 !! p = Some d)
            /\ or_new params w = (Return p, w1)).
  { unfold p, d, param_loc, param_dict. destruct params as [l|]; cbn [or_new].
    - unfold bind, deref. destruct (dict_truthy (default ∅ (heap w !! l))) eqn:Ht.
      + exists w. repeat split; try done. right.
        destruct (heap w !! l) as [d0|]; [done|]. cbn in Ht. discriminate.
      + eexists. unfold alloc. (split; [|split; [|split; [|reflexivity]]]).
        * reflexivity.
        * cbn [heap]. by rewrite lookup_insert_eq.
        * by left.
    - eexists. unfold alloc. (split; [|split; [|split; [|reflexivity]]]).
      + reflexivity.
      + cbn [heap]. by rewrite lookup_insert_eq.
      + by left. }
  destruct Hnew as (w1 & Hs1 & Hd1 & Hd1' & Hnew).
  unfold bind at 1. rewrite Hnew.
  unfold bind at 1, deref at 1. rewrite Hd1.
  unfold with_default_limit.
  destruct (d !! "limit") as [x|] eqn:Hlim.
  - rewrite bool_decide_eq_true_2 by eauto. exists w1.
    split; [exact Hs1|]. split; [|reflexivity].
    destruct Hd1' as [Hd1'|Hd1']; [|exact Hd1'].
    rewrite Hd1' in Hlim. by rewrite lookup_empty in Hlim.
  - rewrite bool_decide_eq_false_2 by (intros [? ?]; done).
    unfold bind at 1, store at 1. rewrite Hd1. eexists.
    (split; [|split; [|reflexivity]]); [exact Hs1|].
    cbn [heap]. by rewrite lookup_insert_eq.
Qed.

Lemma gen_next_first_request (fuel : nat) (endpoint : string) (params : option nat)
    (item_factory : option (pyval -> outcome pyval)) (limit : option Z) (w : World) :
  exists rest,
    sent (snd (gen_next E self (S fuel) (GenCreated endpoint params item_factory limit) w))
    = sent w ++ first_page_request E self endpoint params w :: rest.
Proof.
  destruct (gen_next_created_params (S fuel) endpoint params item_factory limit w)
    as (w1 & Hs1 & Hp & ->).
  cbn [while_true]. unfold fetch_page. cbn [truthy l_next_url l_endpoint l_params].
  unfold bind at 1, bind at 1.
  destruct (request_fuel_first E self (Z.to_nat (max_retries self - 0)) "GET" endpoint
              (Some (param_loc params w)) None 0 w1) as (rest & Hrest).
  change (_get E self endpoint (Some (param_loc params w)) w1)
    with (_request_fuel E self (S (Z.to_nat (max_retries self - 0))) "GET" endpoint
            (Some (param_loc params w)) None 0 w1).
  assert (Hreq : built_request E self "GET" endpoint (Some (param_loc params w)) None w1
                 = first_page_request E self endpoint params w).
  { unfold built_request, first_page_request, param_dict at 1. cbn [String.eqb Ascii.eqb Bool.eqb].
    rewrite Hp. cbn [default from_option id]. by rewrite with_default_limit_truthy. }
  rewrite Hreq, Hs1 in Hrest.
  destruct (_request_fuel E self (S (Z.to_nat (max_retries self - 0))) "GET" endpoint
              (Some (param_loc params w)) None 0 w1) as [[result|e|] w2];
    cbn [snd] in Hrest; cbn [ret fst snd l_item_factory];
    [|by exists rest|by exists rest].
  unfold bind at 1, lift at 1.
  destruct (from_dict result item_factory) as [response|e|];
    [|by exists rest|by exists rest].
  unfold bind at 1, lift at 1.
  destruct (py_iter (data response)) as [items|e|]; [|by exists rest|by exists rest].
  unfold for_items. destruct items as [|item more]; [|by exists rest].
  destruct (negb (has_next response)); [by exists rest|].
  match goal with |- context [while_true E self fuel ?v w2] =>
    destruct (while_true_log E self w2 fuel v w2 (log_from_refl _ w2)) as (new & Hnew & _)
  end.
  exists (rest ++ new). rewrite Hnew, Hrest. by rewrite <- app_assoc.
Qed.

End FirstPage.

(** X10.  The request for the first page does not depend on the item
    limit of the traversal, nor on the factory: it is a [GET] of the
    endpoint whose query parameters are the caller's, with the token, and
    with the page size [limit = 500] unless the caller's parameters have a
    ["limit"] of their own.  A traversal asked for one item asks the
    server for a page of 500. *)
Theorem paginate_first_request (E : Env) (self : BaseClient) (fuel : nat) (endpoint : string)
    (params : option nat) (item_factory : option (pyval -> outcome pyval)) (limit : option Z)
    (w : World) :
  (exists rest,
     sent (snd (gen_next E self (S fuel) (GenCreated endpoint params item_factory limit) w))
     = sent w ++ first_page_request E self endpoint params w :: rest)
  /\ (exists d,
        req_params (first_page_request E self endpoint params w) = Some d
        /\ d !! "access_token" = Some (PStr (access_token self))
        /\ d !! "limit" = Some (default (PInt 500) (param_dict params w !! "limit"))).
Proof.
  split; [apply gen_next_first_request|].
  eexists. split; [reflexivity|]. split; [by rewrite lookup_insert_eq|].
  rewrite lookup_insert_ne by done. unfold with_default_limit.
  destruct (param_dict params w !! "limit") as [x|] eqn:Hlim; cbn [default from_option id].
  - exact Hlim.
  - by rewrite lookup_insert_eq.
Qed.

(** The first request of the two-page scenario with a limit of one item. *)
Lemma first_page_of_limit_one :
  (fun r => (req_method r, req_url r, req_params r))
    <$> sent (snd (gen_next two_page_env (sample_client false 3) 2
                            (GenCreated "threat_descriptors" None None (Some 1%Z)) empty_world))
  = [("GET", "https://graph.facebook.com/v19.0/threat_descriptors",
      Some (<["limit" := PInt 500]> {["access_token" := PStr "test_token"]}))].
Proof. vm_compute. reflexivity. Qed.
